(** * qrpc: frame reader, request multiplexer and connection registry

    A shallow embedding of [server.go] (the [ServeMux], the [Server]
    registry and lifecycle operations, and [defaultFrameReader]) together
    with the properties of these operations.

    Conventions.
    - Go's fixed-width unsigned integers are [Z] values with the wrap-around
      written out ([uint8], [uint32], [uint64] below).
    - A Go function returning [(x, err)] returns a pair of options here;
      [None] stands for [nil].
    - Functions that touch shared state take the state and return an
      [outcome]: normal completion with the new state, a panic, a fatal
      runtime error, or a goroutine parked forever. *)

From Stdlib Require Import ZArith List Lia Bool.
From Stdlib.Strings Require Import Byte.
From stdpp Require Import gmap strings list.

Local Open Scope Z_scope.

(** ** Machine integers *)

Definition uint8 (x : Z) : Z := x mod 2 ^ 8.
Definition uint32 (x : Z) : Z := x mod 2 ^ 32.
Definition uint64 (x : Z) : Z := x mod 2 ^ 64.

Definition byte_val (b : byte) : Z := Z.of_N (Byte.to_N b).

(** [binary.BigEndian]: the most significant byte comes first. *)
Definition be_uint (bs : list byte) : Z :=
  fold_left (fun acc b => acc * 256 + byte_val b) bs 0.

(** [binary.BigEndian.Uint32(b)] reads [b[0..3]]. *)
Definition Uint32 (b : list byte) : Z := be_uint (firstn 4 b).
(** [binary.BigEndian.Uint64(b)] reads [b[0..7]]. *)
Definition Uint64 (b : list byte) : Z := be_uint (firstn 8 b).

(** ** Errors *)

Inductive Error : Type :=
| ErrInvalidFrameSize          (* "invalid frame size" *)
| ErrFrameTooLarge             (* "frame size too large" *)
| ErrListenerAcceptReturnType  (* "qrpc: Listener.Accept doesn't return TCPConn" *)
| ErrAcceptTimedout            (* "qrpc: accept timed out" *)
| ErrServerClosed              (* "qrpc: Server closed" *)
| ErrShortRead                 (* the underlying I/O error of a short read *)
| OpError (timeout temporary : bool) (inner : Error)   (* *net.OpError *)
| ErrOther (code : nat).       (* any other error of a collaborator *)

(** ** Frames *)

Record Frame : Type := mkFrame
  { RequestID : Z;          (* uint64 *)
    Cmd : Z;                (* Cmd, a uint32 *)
    Flags : Z;              (* FrameFlag, a uint8 *)
    Payload : list byte }.

(** ** The byte reader *)

(** The connection seen from the reader: the bytes still to arrive. *)
Record Reader : Type := mkReader { wire : list byte }.

(** Modelled from the spec: [Reader.ReadBytes], the method of the buffered
    reader embedded in [defaultFrameReader], which is declared outside
    [server.go].  It fills the whole buffer of [n] bytes from the
    connection, or fails with the underlying I/O error on a short read. *)
Definition ReadBytes (r : Reader) (n : nat) : (list byte + Error) * Reader :=
  if (n <=? length (wire r))%nat
  then (inl (firstn n (wire r)), mkReader (skipn n (wire r)))
  else (inr ErrShortRead, mkReader []).

(** ** defaultFrameReader

    [rbuf] is scratch space for the 16 header bytes: each [readFrame]
    overwrites it before decoding, so the header is threaded as a value.
    [ctx] is only handed on to the stream table. *)

Record defaultFrameReader : Type := mkDFR
  { reader : Reader;
    maxFrameSize : Z }.     (* int *)

Definition set_reader (dfr : defaultFrameReader) (r : Reader) : defaultFrameReader :=
  {| reader := r; maxFrameSize := maxFrameSize dfr |}.

Definition readFrame (dfr : defaultFrameReader)
  : (option Frame * option Error) * defaultFrameReader :=
  match ReadBytes (reader dfr) 16 with
  | (inr err, r1) => ((None, Some err), set_reader dfr r1)
  | (inl header, r1) =>
      let size := Uint32 header in
      let requestID := Uint64 (skipn 4 header) in
      let cmdAndFlags := Uint32 (skipn 12 header) in
      let cmd := uint32 (Z.land cmdAndFlags 0xffffff) in
      let flags := uint8 (Z.shiftr cmdAndFlags 24) in
      if (0 <? maxFrameSize dfr) && (uint32 (maxFrameSize dfr) <? size)
      then ((None, Some ErrFrameTooLarge), set_reader dfr r1)
      else if size <? 12
      then ((None, Some ErrInvalidFrameSize), set_reader dfr r1)
      else
        match ReadBytes r1 (Z.to_nat (uint32 (size - 12))) with
        | (inr err, r2) => ((None, Some err), set_reader dfr r2)
        | (inl payload, r2) =>
            ((Some {| RequestID := requestID; Cmd := cmd;
                      Flags := flags; Payload := payload |}, None),
             set_reader dfr r2)
        end
  end.

(** ** Outcomes of calls that touch shared state

    [St] is the state the call runs in and [A] its result. *)

Inductive outcome (St A : Type) : Type :=
| Ret (a : A) (s : St)       (* returned normally *)
| Panic (msg : string) (s : St)  (* panicked; [s] is the state after the deferred calls *)
| Fatal (msg : string) (s : St)  (* unrecoverable runtime error: the process dies *)
| Parked (s : St)            (* blocked with nobody left to wake it *)
| OutOfFuel.                 (* the loop bound of the model was reached *)

Arguments Ret {St A} a s.
Arguments Panic {St A} msg s.
Arguments Fatal {St A} msg s.
Arguments Parked {St A} s.
Arguments OutOfFuel {St A}.

(** ** The stream table seen from [ReadFrame]

    [ConnStreams], [Stream] and [FrameFlag.IsRst] are declared outside
    [server.go]; [ReadFrame] only calls them, so they are the operations of
    an interface here.  A [Stream] is a handle, its state lives in the
    table.  [DoneClosed s cs] tells whether the channel [s.Done()] is
    closed, that is, whether [<-s.Done()] returns. *)

Class StreamOps (ConnStreams Stream : Type) : Type :=
  { IsRst : Z -> bool;
    GetStream : ConnStreams -> Z -> Z -> option Stream;
    ResetByPeer : Stream -> ConnStreams -> ConnStreams;
    CreateOrGetStream : ConnStreams -> Z -> Z -> (Stream * bool) * ConnStreams;
    TryBind : Stream -> Frame -> ConnStreams -> bool * ConnStreams;
    AddInFrame : Stream -> Frame -> ConnStreams -> bool * ConnStreams;
    DoneClosed : Stream -> ConnStreams -> bool }.

Section ReadFrameDef.
Context {ConnStreams Stream : Type} `{!StreamOps ConnStreams Stream}.

(** The state [ReadFrame] runs in: the reader and the stream table. *)
Definition rf_state : Type := defaultFrameReader * ConnStreams.

(** [ReadFrame]; one unit of fuel per pass through the label [start]. *)
Fixpoint ReadFrame (fuel : nat) (dfr : defaultFrameReader) (cs : ConnStreams)
  : outcome rf_state (option Frame * option Error) :=
  match fuel with
  | O => OutOfFuel
  | S fuel' =>
      let '((f, err), dfr1) := readFrame dfr in
      match err with
      | Some err => Ret (f, Some err) (dfr1, cs)
      | None =>
          match f with
          | None => Panic "invalid memory address or nil pointer dereference"
                      (dfr1, cs)
          | Some f =>
              let requestID := RequestID f in
              let flags := Flags f in
              if IsRst flags then
                let cs1 := match GetStream cs requestID flags with
                           | Some s => ResetByPeer s cs
                           | None => cs
                           end in
                ReadFrame fuel' dfr1 cs1
              else
                let '((s, loaded), cs1) :=
                  CreateOrGetStream cs requestID flags in
                let '(bound, cs2) := TryBind s f cs1 in
                if bound then Ret (Some f, None) (dfr1, cs2)
                else
                  let '(ok, cs3) := AddInFrame s f cs2 in
                  if ok then ReadFrame fuel' dfr1 cs3
                  else if DoneClosed s cs3 then ReadFrame fuel' dfr1 cs3
                  else Parked (dfr1, cs3)
          end
      end
  end.
End ReadFrameDef.

(** ** sync.RWMutex and sync.Mutex

    As documented in package [sync]: [Lock] waits until no reader and no
    writer holds the lock, [RLock] waits until no writer holds it, and
    unlocking a lock that is not held is a fatal runtime error.  In a state
    where the lock can not be taken the caller is [Parked]. *)

Record RWMutex : Type := mkRW { writer : bool; readers : nat }.

Definition rw_free (mu : RWMutex) : bool := negb (writer mu) && (readers mu =? 0)%nat.

Definition rw_Lock (mu : RWMutex) : option RWMutex :=
  if rw_free mu then Some (mkRW true 0) else None.
Definition rw_Unlock (mu : RWMutex) : option RWMutex :=
  if writer mu then Some (mkRW false (readers mu)) else None.
Definition rw_RLock (mu : RWMutex) : option RWMutex :=
  if writer mu then None else Some (mkRW false (S (readers mu))).
Definition rw_RUnlock (mu : RWMutex) : option RWMutex :=
  match readers mu with
  | O => None
  | S n => Some (mkRW (writer mu) n)
  end.

(** A [sync.Mutex] is its locked bit. *)
Definition mutex_Lock (locked : bool) : option bool :=
  if locked then None else Some true.
Definition mutex_Unlock (locked : bool) : option bool :=
  if locked then Some false else None.

(** ** Handlers and the request multiplexer *)

(** A [FrameWriter] is known by the connection it writes to. *)
Definition FrameWriter : Type := nat.
Definition MiddlewareFunc : Type := nat.

(** A non-nil [Handler] value.  [HandlerWithMW] is declared outside
    [server.go]; it is kept as the wrapper it builds. *)
Inductive Handler : Type :=
| HandlerFunc (f : nat)
| HandlerWithMW (h : Handler) (middleware : list MiddlewareFunc).

Record RequestFrame : Type := mkRequestFrame
  { rf_RequestID : Z;
    rf_Cmd : Z }.

(** What a call does to its collaborators, in order. *)
Inductive mux_event : Type :=
| EvLogError (msg : string) (cmd : Z)
| EvClose (r : RequestFrame)                               (* r.Close() *)
| EvServeQRPC (h : Handler) (w : FrameWriter) (r : RequestFrame).  (* h.ServeQRPC(w, r) *)

Module ServeMux.

(** [m] is [None] for the nil map of a mux made by [NewServeMux]. *)
Record t : Type := mk
  { mu : RWMutex;
    m : option (gmap Z Handler);
    events : list mux_event }.

Definition NewServeMux : t := {| mu := mkRW false 0; m := None; events := [] |}.

Definition set_mu (mux : t) (l : RWMutex) : t :=
  {| mu := l; m := m mux; events := events mux |}.
Definition set_m (mux : t) (tbl : option (gmap Z Handler)) : t :=
  {| mu := mu mux; m := tbl; events := events mux |}.
Definition emit (mux : t) (e : mux_event) : t :=
  {| mu := mu mux; m := m mux; events := events mux ++ [e] |}.

(** [mux.m[cmd]], reading a nil map finds nothing. *)
Definition lookup (mux : t) (cmd : Z) : option Handler :=
  match m mux with
  | Some tbl => tbl !! cmd
  | None => None
  end.

(** [defer mux.mu.Unlock()] run on the way out of [Handle]. *)
Definition deferred_Unlock {A} (k : t -> outcome t A) (mux : t) : outcome t A :=
  match rw_Unlock (mu mux) with
  | Some l => k (set_mu mux l)
  | None => Fatal "sync: Unlock of unlocked RWMutex" mux
  end.

Definition Handle (cmd : Z) (handler : option Handler)
    (middleware : list MiddlewareFunc) (mux : t) : outcome t unit :=
  match rw_Lock (mu mux) with
  | None => Parked mux
  | Some l =>
      let mux := set_mu mux l in
      match handler with
      | None => deferred_Unlock (Panic "qrpc: nil handler") mux
      | Some h =>
          match lookup mux cmd with
          | Some _ =>
              deferred_Unlock (Panic "qrpc: multiple registrations") mux
          | None =>
              let tbl := match m mux with
                         | Some tbl => tbl
                         | None => ∅
                         end in
              let mux := set_m mux (Some (<[cmd := HandlerWithMW h middleware]> tbl)) in
              deferred_Unlock (Ret tt) mux
          end
      end
  end.

Definition HandleFunc (cmd : Z) (handler : nat)
    (middleware : list MiddlewareFunc) (mux : t) : outcome t unit :=
  Handle cmd (Some (HandlerFunc handler)) middleware mux.

Definition ServeQRPC (w : FrameWriter) (r : RequestFrame) (mux : t)
  : outcome t unit :=
  match rw_RLock (mu mux) with
  | None => Parked mux
  | Some l =>
      let mux := set_mu mux l in
      match lookup mux (rf_Cmd r) with
      | None =>
          let mux := emit mux (EvLogError "cmd not registered" (rf_Cmd r)) in
          let mux := emit mux (EvClose r) in
          Ret tt mux
      | Some h =>
          match rw_RUnlock (mu mux) with
          | None => Fatal "sync: RUnlock of unlocked RWMutex" mux
          | Some l =>
              let mux := set_mu mux l in
              Ret tt (emit mux (EvServeQRPC h w r))
          end
      end
  end.

End ServeMux.

(** ** The server: registry, lifecycle and accept path *)

(** An accepted socket ([net.Conn]).  [isTCPConn] tells whether the value
    implements the [TCPConn] interface; the two errors are what
    [SetKeepAlive] and [SetKeepAlivePeriod] return on it. *)
Record Conn : Type := mkConn
  { conn_fd : nat;
    isTCPConn : bool;
    setKeepAlive_err : option Error;
    setKeepAlivePeriod_err : option Error;
    close_err : option Error }.   (* what closing the socket returns *)

(** A [*serveconn] is an address in the heap of connections. *)
Definition connptr : Type := nat.

Record serveconn : Type := mkServeconn
  { rwc : option Conn;
    idx : nat;
    id : string;
    untrack_flag : Z;           (* the uint32 [untrack], 0 or 1 *)
    untrackedCh_closed : bool;  (* has [untrackedCh] been closed *)
    readFrameCh_cap : Z;        (* capacity of [readFrameCh], 0 if unbuffered *)
    closed : bool }.            (* has [closeUntracked] run *)

Record ServerBinding : Type := mkBinding
  { ReadFrameChSize : Z;
    OnKickCB : option nat;      (* the callback, if configured *)
    CounterMetric : bool }.     (* is a metric sink configured *)

(** The value stored in [srv.throttle[idx]]: the [on] bit and whether the
    gate [ch] has been closed. *)
Record throttle_t : Type := mkThrottle
  { on : bool;
    ch_closed : bool }.

Record NetListener : Type := mkListener
  { ln_id : nat;
    ln_close_err : option Error }.

Inductive srv_event : Type :=
| EvOnKick (cb : nat) (w : FrameWriter)     (* OnKickCB(sc.GetWriter()) *)
| EvKickoffMetric (err : option Error)      (* CounterMetric.With(...).Add(1) *)
| EvCloseUntracked (sc : connptr)           (* vsc.closeUntracked() *)
| EvCall (f : nat)                          (* f() for a shutdown callback *)
| EvListenerClose (ln : nat)                (* ln.Close() *)
| EvSetKeepAlive (fd : nat) (on : bool)     (* tc.SetKeepAlive(on) *)
| EvSetKeepAlivePeriod (fd : nat) (seconds : Z)
| EvSleep (ns : Z)                          (* time.Sleep *)
| EvServe (sc : connptr).                   (* c.serve() in its own goroutine *)

(** The [Server] fields the modelled functions use, the heap of
    connections, the package variable [kickOrder], and the trace of calls
    made to collaborators. *)
Record Server : Type := mkServer
  { bindings : list ServerBinding;
    mu : bool;   (* sync.Mutex *)
    listeners : list NetListener;
    doneChan_closed : bool;
    shutdownFunc : list nat;
    done : bool;
    id2Conn : list (gmap string connptr);
    activeConn : list (gset connptr);
    throttle : list (option throttle_t);   (* nil until SetThrottle *)
    wg : nat;   (* outstanding goroutines *)
    heap : gmap connptr serveconn;
    kickOrder : Z;   (* uint64 *)
    trace : list srv_event }.

Definition NewServer (bs : list ServerBinding) : Server :=
  {| bindings := bs; mu := false; listeners := []; doneChan_closed := false;
     shutdownFunc := []; done := false;
     id2Conn := repeat ∅ (length bs); activeConn := repeat ∅ (length bs);
     throttle := repeat None (length bs);
     wg := 0%nat; heap := ∅; kickOrder := 0; trace := [] |}.

Definition set_mu (srv : Server) (v : bool) : Server :=
  {| bindings := bindings srv; mu := v; listeners := listeners srv;
     doneChan_closed := doneChan_closed srv;
     shutdownFunc := shutdownFunc srv; done := done srv;
     id2Conn := id2Conn srv; activeConn := activeConn srv;
     throttle := throttle srv; wg := wg srv; heap := heap srv;
     kickOrder := kickOrder srv; trace := trace srv |}.
Definition set_listeners (srv : Server) (v : list NetListener) : Server :=
  {| bindings := bindings srv; mu := mu srv; listeners := v;
     doneChan_closed := doneChan_closed srv;
     shutdownFunc := shutdownFunc srv; done := done srv;
     id2Conn := id2Conn srv; activeConn := activeConn srv;
     throttle := throttle srv; wg := wg srv; heap := heap srv;
     kickOrder := kickOrder srv; trace := trace srv |}.
Definition set_doneChan_closed (srv : Server) (v : bool) : Server :=
  {| bindings := bindings srv; mu := mu srv; listeners := listeners srv;
     doneChan_closed := v; shutdownFunc := shutdownFunc srv;
     done := done srv; id2Conn := id2Conn srv;
     activeConn := activeConn srv; throttle := throttle srv;
     wg := wg srv; heap := heap srv; kickOrder := kickOrder srv;
     trace := trace srv |}.
Definition set_shutdownFunc (srv : Server) (v : list nat) : Server :=
  {| bindings := bindings srv; mu := mu srv; listeners := listeners srv;
     doneChan_closed := doneChan_closed srv; shutdownFunc := v;
     done := done srv; id2Conn := id2Conn srv;
     activeConn := activeConn srv; throttle := throttle srv;
     wg := wg srv; heap := heap srv; kickOrder := kickOrder srv;
     trace := trace srv |}.
Definition set_done (srv : Server) (v : bool) : Server :=
  {| bindings := bindings srv; mu := mu srv; listeners := listeners srv;
     doneChan_closed := doneChan_closed srv;
     shutdownFunc := shutdownFunc srv; done := v;
     id2Conn := id2Conn srv; activeConn := activeConn srv;
     throttle := throttle srv; wg := wg srv; heap := heap srv;
     kickOrder := kickOrder srv; trace := trace srv |}.
Definition set_id2Conn (srv : Server) (v : list (gmap string connptr)) : Server :=
  {| bindings := bindings srv; mu := mu srv; listeners := listeners srv;
     doneChan_closed := doneChan_closed srv;
     shutdownFunc := shutdownFunc srv; done := done srv; id2Conn := v;
     activeConn := activeConn srv; throttle := throttle srv;
     wg := wg srv; heap := heap srv; kickOrder := kickOrder srv;
     trace := trace srv |}.
Definition set_activeConn (srv : Server) (v : list (gset connptr)) : Server :=
  {| bindings := bindings srv; mu := mu srv; listeners := listeners srv;
     doneChan_closed := doneChan_closed srv;
     shutdownFunc := shutdownFunc srv; done := done srv;
     id2Conn := id2Conn srv; activeConn := v; throttle := throttle srv;
     wg := wg srv; heap := heap srv; kickOrder := kickOrder srv;
     trace := trace srv |}.
Definition set_wg (srv : Server) (v : nat) : Server :=
  {| bindings := bindings srv; mu := mu srv; listeners := listeners srv;
     doneChan_closed := doneChan_closed srv;
     shutdownFunc := shutdownFunc srv; done := done srv;
     id2Conn := id2Conn srv; activeConn := activeConn srv;
     throttle := throttle srv; wg := v; heap := heap srv;
     kickOrder := kickOrder srv; trace := trace srv |}.
Definition set_heap (srv : Server) (v : gmap connptr serveconn) : Server :=
  {| bindings := bindings srv; mu := mu srv; listeners := listeners srv;
     doneChan_closed := doneChan_closed srv;
     shutdownFunc := shutdownFunc srv; done := done srv;
     id2Conn := id2Conn srv; activeConn := activeConn srv;
     throttle := throttle srv; wg := wg srv; heap := v;
     kickOrder := kickOrder srv; trace := trace srv |}.
Definition set_kickOrder (srv : Server) (v : Z) : Server :=
  {| bindings := bindings srv; mu := mu srv; listeners := listeners srv;
     doneChan_closed := doneChan_closed srv;
     shutdownFunc := shutdownFunc srv; done := done srv;
     id2Conn := id2Conn srv; activeConn := activeConn srv;
     throttle := throttle srv; wg := wg srv; heap := heap srv;
     kickOrder := v; trace := trace srv |}.
Definition log (srv : Server) (e : srv_event) : Server :=
  {| bindings := bindings srv; mu := mu srv; listeners := listeners srv;
     doneChan_closed := doneChan_closed srv;
     shutdownFunc := shutdownFunc srv; done := done srv;
     id2Conn := id2Conn srv; activeConn := activeConn srv;
     throttle := throttle srv; wg := wg srv; heap := heap srv;
     kickOrder := kickOrder srv; trace := trace srv ++ [e] |}.

Definition set_untracked (c : serveconn) (flag : Z) : serveconn :=
  {| rwc := rwc c; idx := idx c; id := id c; untrack_flag := flag;
     untrackedCh_closed := untrackedCh_closed c;
     readFrameCh_cap := readFrameCh_cap c; closed := closed c |}.
Definition set_untrackedCh_closed (c : serveconn) (b : bool) : serveconn :=
  {| rwc := rwc c; idx := idx c; id := id c; untrack_flag := untrack_flag c;
     untrackedCh_closed := b;
     readFrameCh_cap := readFrameCh_cap c; closed := closed c |}.
Definition set_closed (c : serveconn) (b : bool) : serveconn :=
  {| rwc := rwc c; idx := idx c; id := id c; untrack_flag := untrack_flag c;
     untrackedCh_closed := untrackedCh_closed c;
     readFrameCh_cap := readFrameCh_cap c; closed := b |}.

(** [sc.GetID()] and [sc.GetWriter()]. *)
Definition GetID (c : serveconn) : string := id c.
Definition GetWriter (sc : connptr) : FrameWriter := sc.

(** ** A state monad over [outcome] for the server's methods *)

Definition M (A : Type) : Type := Server -> outcome Server A.

Definition ret {A} (a : A) : M A := fun srv => Ret a srv.
Definition bind {A B} (c : M A) (k : A -> M B) : M B :=
  fun srv =>
    match c srv with
    | Ret a srv' => k a srv'
    | Panic msg srv' => Panic msg srv'
    | Fatal msg srv' => Fatal msg srv'
    | Parked srv' => Parked srv'
    | OutOfFuel => OutOfFuel
    end.

(** The notations [x ← c; k] and [c;; k] of stdpp's monads. *)
#[global] Instance M_ret : MRet M := @ret.
#[global] Instance M_bind : MBind M := fun A B k c => bind c k.

Definition gets {A} (f : Server -> A) : M A := fun srv => Ret (f srv) srv.
Definition modify (f : Server -> Server) : M unit := fun srv => Ret tt (f srv).
Definition emit (e : srv_event) : M unit := modify (fun srv => log srv e).
Definition panic {A} (msg : string) : M A := fun srv => Panic msg srv.
Definition fatal {A} (msg : string) : M A := fun srv => Fatal msg srv.
Definition park {A} : M A := fun srv => Parked srv.
Definition out_of_fuel {A} : M A := fun _ => OutOfFuel.
Definition when (b : bool) (c : M unit) : M unit := if b then c else ret tt.

(** [l[i]] on a slice: out of range is a run-time panic. *)
Definition index {A} (f : Server -> list A) (i : nat) : M A :=
  fun srv =>
    match f srv !! i with
    | Some x => Ret x srv
    | None => Panic "index out of range" srv
    end.

(** Reading through a [*serveconn]. *)
Definition deref (sc : connptr) : M serveconn :=
  fun srv =>
    match heap srv !! sc with
    | Some c => Ret c srv
    | None => Panic "invalid memory address or nil pointer dereference" srv
    end.
Definition update (sc : connptr) (f : serveconn -> serveconn) : M unit :=
  c ← deref sc;
  modify (fun srv => set_heap srv (<[sc := f c]> (heap srv))).

Definition Lock : M unit :=
  fun srv =>
    match mutex_Lock (mu srv) with
    | Some l => Ret tt (set_mu srv l)
    | None => Parked srv
    end.
Definition Unlock : M unit :=
  fun srv =>
    match mutex_Unlock (mu srv) with
    | Some l => Ret tt (set_mu srv l)
    | None => Fatal "sync: unlock of unlocked mutex" srv
    end.

(** [close(ch)] and [<-ch] on the channel [sc.untrackedCh]. *)
Definition close_untrackedCh (sc : connptr) : M unit :=
  c ← deref sc;
  if untrackedCh_closed c then panic "close of closed channel"
  else update sc (fun c => set_untrackedCh_closed c true).
Definition recv_untrackedCh (sc : connptr) : M unit :=
  c ← deref sc;
  if untrackedCh_closed c then ret tt else park.

(** *** newConn *)

Definition newConn (rw : option Conn) (i : nat) : M connptr :=
  b ← index bindings i;
  h ← gets heap;
  let sc := fresh (dom h) in
  let c := {| rwc := rw; idx := i; id := ""; untrack_flag := 0;
              untrackedCh_closed := false;
              readFrameCh_cap := if 0 <? ReadFrameChSize b
                                 then ReadFrameChSize b else 0;
              closed := false |} in
  modify (fun srv => set_heap srv (<[sc := c]> (heap srv)));;
  act ← index activeConn i;
  modify (fun srv => set_activeConn srv (<[i := {[sc]} ∪ act]> (activeConn srv)));;
  ret sc.

(** *** untrack *)

Definition untrack (sc : connptr) (kicked : bool) : M (bool * connptr) :=
  c ← deref sc;
  (* locked := atomic.CompareAndSwapUint32(&sc.untrack, 0, 1) *)
  let locked := untrack_flag c =? 0 in
  if negb locked then ret (false, sc)
  else
    update sc (fun c => set_untracked c 1);;
    let i := idx c in
    let id := GetID c in
    when (negb (bool_decide (id = "")))
      (tbl ← index id2Conn i;
       modify (fun srv => set_id2Conn srv (<[i := delete id tbl]> (id2Conn srv))));;
    act ← index activeConn i;
    modify (fun srv => set_activeConn srv (<[i := act ∖ {[sc]}]> (activeConn srv)));;
    when kicked
      (b ← index bindings i;
       match OnKickCB b with
       | Some cb => emit (EvOnKick cb (GetWriter sc))
       | None => ret tt
       end);;
    close_untrackedCh sc;;
    ret (true, sc).

(** *** closeUntracked *)

(** Modelled from the spec: [serveconn.closeUntracked], declared outside
    [server.go].  It closes the socket and tears the connection down; what
    it returns is the error of closing the socket. *)
Definition closeUntracked (sc : connptr) : M (option Error) :=
  c ← deref sc;
  update sc (fun c => set_closed c true);;
  emit (EvCloseUntracked sc);;
  ret (match rwc c with
       | Some k => close_err k
       | None => None
       end).

(** *** bindID *)

(** An error that is a [net.OpError] is replaced by the error it wraps. *)
Definition unwrap_OpError (err : option Error) : option Error :=
  match err with
  | Some (OpError _ _ inner) => Some inner
  | _ => err
  end.

(** One unit of fuel per pass through the label [check]. *)
Fixpoint bindID_check (fuel : nat) (sc : connptr) (id : string) (i : nat)
    (kick : bool) : M (bool * Z) :=
  match fuel with
  | O => out_of_fuel
  | S fuel' =>
      (* v, loaded := srv.id2Conn[idx].LoadOrStore(id, sc) *)
      tbl ← index id2Conn i;
      match tbl !! id with
      | Some vsc =>
          if bool_decide (vsc = sc) then ret (kick, 0)
          else
            '(ok, ch) ← untrack vsc true;
            when (negb ok) (recv_untrackedCh ch);;
            err ← closeUntracked vsc;
            let err := unwrap_OpError err in
            b ← index bindings i;
            when (CounterMetric b) (emit (EvKickoffMetric err));;
            modify (fun srv => set_kickOrder srv (uint64 (kickOrder srv + 1)));;
            bindID_check fuel' sc id i true
      | None =>
          modify (fun srv => set_id2Conn srv (<[i := <[id := sc]> tbl]> (id2Conn srv)));;
          ko ← gets kickOrder;
          ret (kick, ko)
      end
  end.

Definition bindID (fuel : nat) (sc : connptr) (id : string) : M (bool * Z) :=
  c ← deref sc;
  bindID_check fuel sc id (idx c) false.

(** *** Shutdown and OnShutdown *)

(** [range srv.listeners], visited in the order of the list. *)
Fixpoint closeListenersLocked (ls : list NetListener) : M (option Error) :=
  match ls with
  | [] => ret None
  | ln :: rest =>
      emit (EvListenerClose (ln_id ln));;
      match ln_close_err ln with
      | Some err => ret (Some err)
      | None =>
          modify (fun srv =>
            set_listeners srv
              (filter (fun l => ln_id l ≠ ln_id ln) (listeners srv)));;
          closeListenersLocked rest
      end
  end.

(** [f()] for each registered callback, in order. *)
Fixpoint call_all (fs : list nat) : M unit :=
  match fs with
  | [] => ret tt
  | f :: rest => emit (EvCall f);; call_all rest
  end.

(** [srv.wg.Wait()]: returns once no goroutine is outstanding. *)
Definition wg_Wait : M unit :=
  n ← gets wg;
  match n : nat with
  | O => ret tt
  | S _ => park
  end.

Definition close_doneChan : M unit :=
  c ← gets doneChan_closed;
  if c : bool then panic "close of closed channel"
  else modify (fun srv => set_doneChan_closed srv true).

Definition Shutdown : M (option Error) :=
  Lock;;
  d ← gets done;
  if d : bool then
    Unlock;;
    wg_Wait;;
    ret None
  else
    ls ← gets listeners;
    lnerr ← closeListenersLocked ls;
    match lnerr : option Error with
    | Some err => Unlock;; ret (Some err)
    | None =>
        modify (fun srv => set_done srv true);;
        Unlock;;
        close_doneChan;;
        fs ← gets shutdownFunc;
        call_all fs;;
        wg_Wait;;
        ret None
    end.

Definition OnShutdown (f : nat) : M unit :=
  Lock;;
  d ← gets done;
  when d (Unlock;; emit (EvCall f));;
  modify (fun srv => set_shutdownFunc srv (shutdownFunc srv ++ [f]));;
  Unlock.

(** *** The accept path *)

(** [tcpKeepAliveListener.Accept]; [inner] is what the wrapped
    [ln.Listener.Accept()] returns.  The results of [SetKeepAlive] and
    [SetKeepAlivePeriod] are dropped by the two call statements. *)
Definition Accept (inner : option Conn * option Error)
  : M (option Conn * option Error) :=
  let '(c, err) := inner in
  match err with
  | Some _ => ret (c, err)
  | None =>
      match c with
      | Some tc =>
          if isTCPConn tc then
            emit (EvSetKeepAlive (conn_fd tc) true);;
            let _ := setKeepAlive_err tc in
            emit (EvSetKeepAlivePeriod (conn_fd tc) 20);;
            let _ := setKeepAlivePeriod_err tc in
            ret (c, None)
          else ret (c, Some ErrListenerAcceptReturnType)
      | None => ret (c, Some ErrListenerAcceptReturnType)
      end
  end.

(** [waitThrottle]: [select] on the gate and the done channel. *)
Definition waitThrottle (i : nat) : M unit :=
  v ← index throttle i;
  match v : option throttle_t with
  | Some t =>
      if on t then
        d ← gets doneChan_closed;
        if ch_closed t || (d : bool) then ret tt else park
      else ret tt
  | None => ret tt
  end.

Definition millisecond : Z := 1000000.
Definition second : Z := 1000000000.

(** How one pass through the [for] loop of [Serve] ends. *)
Inductive serve_step : Type :=
| Continue (tempDelay : Z)
| Return (err : Error).

(** Modelled from the spec: [GoFunc], declared outside [server.go].  The
    goroutine it starts is counted in the wait group and its body runs at
    once. *)
Definition GoFunc {A} (body : M A) : M A :=
  modify (fun srv => set_wg srv (S (wg srv)));;
  body.

(** One pass through the loop of [Serve] on binding [i]; [inner] is what
    the wrapped listener's [Accept] returns in this pass.  [SetDeadline]
    leaves the state alone, and [c.serve()] is recorded as started. *)
Definition Serve_iter (i : nat) (tempDelay : Z)
    (inner : option Conn * option Error) : M serve_step :=
  waitThrottle i;;
  '(rw, e) ← Accept inner;
  match e : option Error with
  | Some e =>
      d ← gets doneChan_closed;
      if d : bool then ret (Return ErrServerClosed)
      else
        match e with
        | ErrAcceptTimedout => ret (Continue tempDelay)
        | OpError true _ _ => ret (Continue tempDelay)
        | OpError false true _ =>
            let tempDelay := if tempDelay =? 0 then 5 * millisecond
                             else tempDelay * 2 in
            let tempDelay := if 1 * second <? tempDelay then 1 * second
                             else tempDelay in
            emit (EvSleep tempDelay);;
            ret (Continue tempDelay)
        | _ =>
            emit (EvSleep second);;
            ret (Continue tempDelay)
        end
  | None =>
      GoFunc (c ← newConn rw i; emit (EvServe c));;
      ret (Continue 0)
  end.

(** ** A stream table for running [ReadFrame] *)

(** Modelled from the spec: the states of a stream (section 3). *)
Inductive stream_state : Type := Open | HalfClosed | Reset | Closed.

(** Modelled from the spec: a stream, with what [TryBind], [AddInFrame]
    and [ResetByPeer] leave on it. *)
Record stream : Type := mkStream
  { st : stream_state;
    bound : bool;
    inframes : list Frame;
    notified : bool }.

(** Modelled from the spec: the RST bit of [FrameFlag]; its position is
    left to the implementation, bit 2 is taken here. *)
Definition StreamRstFlag : Z := 4.

(** Modelled from the spec: no frame is accepted by a stream that is
    [Reset] or [Closed]. *)
Definition is_terminal (s : stream) : bool :=
  match st s with
  | Reset | Closed => true
  | _ => false
  end.

(** Modelled from the spec: the stream table of sections 3 and 4.2,
    declared outside [server.go].  [TryBind] succeeds once per stream,
    [AddInFrame] fails on a stream that is [Reset] or [Closed], and
    [ResetByPeer] sets [Reset] and wakes the consumers, which closes
    [Done]. *)
#[global] Instance table_ops : StreamOps (gmap Z stream) Z :=
  {| IsRst := fun flags => negb (Z.land flags StreamRstFlag =? 0);
     GetStream := fun cs requestID _ =>
       match cs !! requestID with
       | Some _ => Some requestID
       | None => None
       end;
     ResetByPeer := fun s cs =>
       alter (fun x => {| st := Reset; bound := bound x;
                          inframes := inframes x; notified := true |}) s cs;
     CreateOrGetStream := fun cs requestID _ =>
       match cs !! requestID with
       | Some _ => ((requestID, true), cs)
       | None => ((requestID, false),
                  <[requestID := mkStream Open false [] false]> cs)
       end;
     TryBind := fun s f cs =>
       match cs !! s with
       | Some x =>
           if bound x then (false, cs)
           else (true, <[s := {| st := st x; bound := true;
                                 inframes := inframes x;
                                 notified := notified x |}]> cs)
       | None => (false, cs)
       end;
     AddInFrame := fun s f cs =>
       match cs !! s with
       | Some x =>
           if is_terminal x then (false, cs)
           else (true, <[s := {| st := st x; bound := bound x;
                                 inframes := inframes x ++ [f];
                                 notified := notified x |}]> cs)
       | None => (false, cs)
       end;
     DoneClosed := fun s cs =>
       match cs !! s with
       | Some x => is_terminal x
       | None => true
       end |}.

(** ** The rest of the server's methods *)

(** *** newFrameReader

    [NewReaderWithTimeout(ctx, rwc, timeout)] wraps the connection; the
    connection is the bytes it will deliver. *)
Definition newFrameReaderWithMFS (rwc : list byte) (maxFrameSize : Z)
  : defaultFrameReader :=
  {| reader := mkReader rwc; maxFrameSize := maxFrameSize |}.

Definition newFrameReader (rwc : list byte) : defaultFrameReader :=
  newFrameReaderWithMFS rwc 0.

(** *** GetPushID

    [atomic.AddUint64(&srv.pushID, 1)]: [srv.pushID] is the only field the
    method touches, it is the state here.  The result is the id and the
    new counter. *)
Definition GetPushID (pushID : Z) : Z * Z :=
  let pushID := uint64 (pushID + 1) in
  (pushID, pushID).

(** [n] calls of [GetPushID] in a row: the ids in order, and the counter. *)
Fixpoint GetPushIDs (n : nat) (pushID : Z) : list Z * Z :=
  match n with
  | O => ([], pushID)
  | S n' =>
      let '(p, pushID1) := GetPushID pushID in
      let '(ps, pushID2) := GetPushIDs n' pushID1 in
      (p :: ps, pushID2)
  end.

(** *** trackListener

    [srv.listeners] is a set of listeners; a listener is known by
    [ln_id]. *)
Definition trackListener (ln : NetListener) (add : bool) : M unit :=
  Lock;;
  (if add then
     modify (fun srv =>
       set_listeners srv
         (if bool_decide (ln_id ln ∈ ln_id <$> listeners srv)
          then listeners srv
          else listeners srv ++ [ln]))
   else
     modify (fun srv =>
       set_listeners srv
         (filter (fun l => ln_id l ≠ ln_id ln) (listeners srv))));;
  Unlock.

(** *** Looking connections up by id

    The [*ConnectionInfo] stored in the context of a connection by
    [newConn] is [&ConnectionInfo{SC: sc}]: it is known by [sc]. *)
Definition ConnectionInfo : Type := connptr.

Fixpoint WalkConnByID (i : nat) (ids : list string)
    (f : FrameWriter -> ConnectionInfo -> M unit) : M unit :=
  match ids with
  | [] => ret tt
  | id :: rest =>
      tbl ← index id2Conn i;
      match (tbl : gmap string connptr) !! id with
      | Some sc =>
          _ ← deref sc;
          f (GetWriter sc) sc
      | None => ret tt
      end;;
      WalkConnByID i rest f
  end.

Definition GetConnectionInfoByID (i : nat) (id : string)
  : M (option ConnectionInfo) :=
  tbl ← index id2Conn i;
  match (tbl : gmap string connptr) !! id with
  | None => ret None
  | Some sc =>
      _ ← deref sc;
      ret (Some sc)
  end.

(** The calls [f(sc.GetWriter(), info of sc)] for the connections of
    [scs], one after the other: what a walk over them amounts to. *)
Fixpoint visit_all (f : FrameWriter -> ConnectionInfo -> M unit)
    (scs : list connptr) : M unit :=
  match scs with
  | [] => ret tt
  | sc :: rest => f (GetWriter sc) sc;; visit_all f rest
  end.

(** *** Throttle *)

Definition set_throttle (srv : Server) (v : list (option throttle_t)) : Server :=
  {| bindings := bindings srv; mu := mu srv; listeners := listeners srv;
     doneChan_closed := doneChan_closed srv;
     shutdownFunc := shutdownFunc srv; done := done srv;
     id2Conn := id2Conn srv; activeConn := activeConn srv;
     throttle := v; wg := wg srv; heap := heap srv;
     kickOrder := kickOrder srv; trace := trace srv |}.

(** [srv.throttle[idx].Store(throttle{on: b, ch: make(chan struct{})})] *)
Definition store_throttle (i : nat) (b : bool) : M unit :=
  modify (fun srv =>
    set_throttle srv (<[i := Some (mkThrottle b false)]> (throttle srv))).

Definition SetThrottle (i : nat) : M unit :=
  v ← index throttle i;
  match v : option throttle_t with
  | Some t => if on t then ret tt else store_throttle i true
  | None => store_throttle i true
  end.

Definition ClearThrottle (i : nat) : M unit :=
  v ← index throttle i;
  match v : option throttle_t with
  | None => ret tt
  | Some t =>
      (if ch_closed t then panic "close of closed channel" else ret tt);;
      store_throttle i false
  end.

(** *** Serve

    [accepts] is what the wrapped listener's [Accept] returns, pass after
    pass; the model stops with [OutOfFuel] when they are used up.  The
    deferred [cancelFunc()] of the serve context touches no state kept
    here. *)
Fixpoint Serve_loop (accepts : list (option Conn * option Error)) (i : nat)
    (tempDelay : Z) : M Error :=
  match accepts with
  | [] => out_of_fuel
  | inner :: rest =>
      step ← Serve_iter i tempDelay inner;
      match step : serve_step with
      | Continue tempDelay => Serve_loop rest i tempDelay
      | Return err => ret err
      end
  end.

(** A call registered with [defer]: it runs when the body returns and
    when it panics. *)
Definition deferred {A} (d : M unit) (body : M A) : M A :=
  fun srv =>
    match body srv with
    | Ret a srv1 => (d;; ret a) srv1
    | Panic msg srv1 =>
        match d srv1 with
        | Ret _ srv2 => Panic msg srv2
        | Panic msg2 srv2 => Panic msg2 srv2
        | Fatal msg2 srv2 => Fatal msg2 srv2
        | Parked srv2 => Parked srv2
        | OutOfFuel => OutOfFuel
        end
    | Fatal msg srv1 => Fatal msg srv1
    | Parked srv1 => Parked srv1
    | OutOfFuel => OutOfFuel
    end.

Definition Serve (l : NetListener) (i : nat)
    (accepts : list (option Conn * option Error)) : M Error :=
  deferred (emit (EvListenerClose (ln_id l)))
    (trackListener l true;;
     deferred (trackListener l false)
       (Serve_loop accepts i 0)).

(** *** The invariant of the registry

    The tables have one slot per binding.  Every entry of [id2Conn] leads
    to a connection of that binding that has not been untracked and whose
    id, not empty, is the key of the entry.  Every connection in
    [activeConn] is one of that binding that has not been untracked.  And
    every connection belongs to a binding the server has, with its signal
    channel closed exactly when it has been untracked. *)
Definition registry_wf (srv : Server) : Prop :=
  length (id2Conn srv) = length (bindings srv) /\
  length (activeConn srv) = length (bindings srv) /\
  (forall (i : nat) (tbl : gmap string connptr) (id : string) (vsc : connptr),
      id2Conn srv !! i = Some tbl ->
      tbl !! id = Some vsc ->
      exists vc : serveconn,
        heap srv !! vsc = Some vc /\
        idx vc = i /\ GetID vc = id /\ id <> "" /\ untrack_flag vc = 0) /\
  (forall (i : nat) (act : gset connptr) (sc : connptr),
      activeConn srv !! i = Some act ->
      sc ∈ act ->
      exists c : serveconn,
        heap srv !! sc = Some c /\ idx c = i /\ untrack_flag c = 0) /\
  (forall (sc : connptr) (c : serveconn),
      heap srv !! sc = Some c ->
      (idx c < length (bindings srv))%nat /\
      (untrackedCh_closed c = true <-> untrack_flag c <> 0)).

(** ** A server to run the registry on

    One binding with a kick callback and a metric sink; connection 0 has
    bound the id ["u1"], connection 1 is about to ask for it. *)

Definition example_binding : ServerBinding :=
  {| ReadFrameChSize := 0; OnKickCB := Some 7%nat; CounterMetric := true |}.

Definition example_conn (fd : nat) : serveconn :=
  {| rwc := Some (mkConn fd true None None None); idx := 0; id := "u1";
     untrack_flag := 0; untrackedCh_closed := false; readFrameCh_cap := 0;
     closed := false |}.

Definition example_server : Server :=
  {| bindings := [example_binding]; mu := false; listeners := [];
     doneChan_closed := false; shutdownFunc := []; done := false;
     id2Conn := [{[ "u1" := 0%nat ]}];
     activeConn := [{[ 0%nat; 1%nat ]}];
     throttle := [None]; wg := 2%nat;
     heap := {[ 0%nat := example_conn 3; 1%nat := example_conn 4 ]};
     kickOrder := 41; trace := [] |}.

(** * Properties *)

(** ** Frame codec *)

Lemma byte_val_range (b : byte) : 0 <= byte_val b < 256.
Proof.
  unfold byte_val. pose proof (Byte.to_N_bounded b). lia.
Qed.

Lemma be_uint_snoc (bs : list byte) (b : byte) :
  be_uint (bs ++ [b]) = be_uint bs * 256 + byte_val b.
Proof. unfold be_uint. now rewrite fold_left_app. Qed.

Lemma be_uint_range (bs : list byte) :
  0 <= be_uint bs < 256 ^ Z.of_nat (length bs).
Proof.
  induction bs as [| b bs IH] using rev_ind.
  - cbn. lia.
  - rewrite be_uint_snoc, length_app, Nat2Z.inj_add, Z.pow_add_r by lia.
    cbn [length]. change (256 ^ Z.of_nat 1) with 256.
    pose proof (byte_val_range b). nia.
Qed.

Lemma Uint32_range (b : list byte) : 0 <= Uint32 b < 2 ^ 32.
Proof.
  unfold Uint32. pose proof (be_uint_range (firstn 4 b)) as H.
  assert (Hl : (length (firstn 4 b) <= 4)%nat) by (rewrite length_firstn; lia).
  assert (256 ^ Z.of_nat (length (firstn 4 b)) <= 256 ^ 4)
    by (apply Z.pow_le_mono_r; lia).
  change (2 ^ 32) with (256 ^ 4). lia.
Qed.

Lemma be_uint4 (a b c d : byte) :
  be_uint [a; b; c; d]
  = byte_val a * 2 ^ 24 + byte_val b * 2 ^ 16 + byte_val c * 2 ^ 8 + byte_val d.
Proof. unfold be_uint. cbn [fold_left]. lia. Qed.

Lemma be_uint8 (a b c d e f g h : byte) :
  be_uint [a; b; c; d; e; f; g; h]
  = byte_val a * 2 ^ 56 + byte_val b * 2 ^ 48 + byte_val c * 2 ^ 40
    + byte_val d * 2 ^ 32 + byte_val e * 2 ^ 24 + byte_val f * 2 ^ 16
    + byte_val g * 2 ^ 8 + byte_val h.
Proof. unfold be_uint. cbn [fold_left]. lia. Qed.

(** Reading [n] bytes that are there. *)
Lemma ReadBytes_enough (pre rest : list byte) :
  ReadBytes (mkReader (pre ++ rest)) (length pre) = (inl pre, mkReader rest).
Proof.
  unfold ReadBytes. cbn [wire].
  rewrite length_app.
  destruct (Nat.leb_spec (length pre) (length pre + length rest)); [| lia].
  now rewrite take_app_length, drop_app_length.
Qed.

(** What [readFrame] does once the 16 header bytes are there. *)
Lemma readFrame_header (dfr : defaultFrameReader) (header tail : list byte) :
  length header = 16%nat ->
  wire (reader dfr) = header ++ tail ->
  readFrame dfr =
    let size := Uint32 header in
    let cmdAndFlags := Uint32 (skipn 12 header) in
    if (0 <? maxFrameSize dfr) && (uint32 (maxFrameSize dfr) <? size)
    then ((None, Some ErrFrameTooLarge), set_reader dfr (mkReader tail))
    else if size <? 12
    then ((None, Some ErrInvalidFrameSize), set_reader dfr (mkReader tail))
    else
      match ReadBytes (mkReader tail) (Z.to_nat (uint32 (size - 12))) with
      | (inr err, r2) => ((None, Some err), set_reader dfr r2)
      | (inl payload, r2) =>
          ((Some {| RequestID := Uint64 (skipn 4 header);
                    Cmd := uint32 (Z.land cmdAndFlags 0xffffff);
                    Flags := uint8 (Z.shiftr cmdAndFlags 24);
                    Payload := payload |}, None),
           set_reader dfr r2)
      end.
Proof.
  intros Hlen Hwire. unfold readFrame.
  destruct dfr as [[w] M]. cbn [reader wire maxFrameSize] in *. subst w.
  change 16%nat with (length header) at 1 || rewrite <- Hlen.
  rewrite ReadBytes_enough. reflexivity.
Qed.

Lemma cmdAndFlags_split (fl c0 c1 c2 : byte) :
  let x := byte_val fl * 2 ^ 24 + byte_val c0 * 2 ^ 16
           + byte_val c1 * 2 ^ 8 + byte_val c2 in
  uint8 (Z.shiftr x 24) = byte_val fl /\
  uint32 (Z.land x 0xffffff)
  = byte_val c0 * 2 ^ 16 + byte_val c1 * 2 ^ 8 + byte_val c2.
Proof.
  intros x.
  pose proof (byte_val_range fl). pose proof (byte_val_range c0).
  pose proof (byte_val_range c1). pose proof (byte_val_range c2).
  set (lo := byte_val c0 * 2 ^ 16 + byte_val c1 * 2 ^ 8 + byte_val c2).
  assert (Hlo : 0 <= lo < 2 ^ 24) by (unfold lo; lia).
  assert (Hx : x = byte_val fl * 2 ^ 24 + lo) by (unfold x, lo; lia).
  split.
  - rewrite Z.shiftr_div_pow2 by lia.
    assert (Hq : x / 2 ^ 24 = byte_val fl).
    { symmetry. apply (Z.div_unique_pos x (2 ^ 24) (byte_val fl) lo); lia. }
    rewrite Hq. unfold uint8. apply Z.mod_small. lia.
  - change 0xffffff with (Z.ones 24). rewrite Z.land_ones by lia.
    assert (Hr : x mod 2 ^ 24 = lo).
    { symmetry. apply (Z.mod_unique_pos x (2 ^ 24) (byte_val fl) lo); lia. }
    rewrite Hr. unfold uint32. apply Z.mod_small. lia.
Qed.

(** C1. A 16-byte header is decoded big-endian: bytes 0-3 are [size],
    bytes 4-11 the [requestID], byte 12 (the high byte of the packed
    [cmdAndFlags]) the flags and bytes 13-15 (its low 24 bits) the [cmd];
    a frame that is returned carries as payload exactly the [size - 12]
    bytes that follow the header on the wire, and the reader is left just
    behind them. *)
Theorem readFrame_decodes_header
    (M : Z) (s0 s1 s2 s3 r0 r1 r2 r3 r4 r5 r6 r7 fl c0 c1 c2 : byte)
    (tail : list byte) (f : Frame) (dfr' : defaultFrameReader) :
  let size := byte_val s0 * 2 ^ 24 + byte_val s1 * 2 ^ 16
              + byte_val s2 * 2 ^ 8 + byte_val s3 in
  readFrame (mkDFR (mkReader ([s0; s1; s2; s3; r0; r1; r2; r3; r4; r5; r6; r7;
                               fl; c0; c1; c2] ++ tail)) M)
  = ((Some f, None), dfr') ->
  RequestID f = byte_val r0 * 2 ^ 56 + byte_val r1 * 2 ^ 48
                + byte_val r2 * 2 ^ 40 + byte_val r3 * 2 ^ 32
                + byte_val r4 * 2 ^ 24 + byte_val r5 * 2 ^ 16
                + byte_val r6 * 2 ^ 8 + byte_val r7 /\
  Flags f = byte_val fl /\
  Cmd f = byte_val c0 * 2 ^ 16 + byte_val c1 * 2 ^ 8 + byte_val c2 /\
  12 <= size /\
  Payload f = firstn (Z.to_nat (size - 12)) tail /\
  Z.of_nat (length (Payload f)) = size - 12 /\
  dfr' = mkDFR (mkReader (skipn (Z.to_nat (size - 12)) tail)) M.
Proof.
  intros size H.
  rewrite (readFrame_header
             (mkDFR (mkReader ([s0; s1; s2; s3; r0; r1; r2; r3; r4; r5; r6; r7;
                                fl; c0; c1; c2] ++ tail)) M)
             [s0; s1; s2; s3; r0; r1; r2; r3; r4; r5; r6; r7; fl; c0; c1; c2]
             tail eq_refl eq_refl) in H.
  cbv zeta in H. unfold Uint32, Uint64 in H.
  cbn [skipn firstn maxFrameSize] in H.
  rewrite !be_uint4, be_uint8 in H. fold size in H.
  destruct (cmdAndFlags_split fl c0 c1 c2) as [Hfl Hcmd]. cbv zeta in Hfl, Hcmd.
  rewrite Hfl, Hcmd in H.
  assert (Hsz : 0 <= size < 2 ^ 32).
  { pose proof (byte_val_range s0). pose proof (byte_val_range s1).
    pose proof (byte_val_range s2). pose proof (byte_val_range s3).
    unfold size. lia. }
  destruct ((0 <? M) && (uint32 M <? size)); [discriminate |].
  destruct (Z.ltb_spec size 12) as [| Hge]; [discriminate |].
  assert (Hn : uint32 (size - 12) = size - 12)
    by (unfold uint32; apply Z.mod_small; lia).
  rewrite Hn in H. unfold ReadBytes in H. cbn [wire] in H.
  destruct (Nat.leb_spec (Z.to_nat (size - 12)) (length tail)) as [Hle |];
    [| discriminate].
  unfold set_reader in H. cbn [maxFrameSize] in H.
  injection H as <- <-. cbn [RequestID Flags Cmd Payload].
  repeat split; try reflexivity; try assumption.
  rewrite length_firstn. lia.
Qed.

(** A frame on the wire that [readFrame] returns: scenario A of the
    specification, followed by one more byte. *)
Lemma readFrame_decodes_header_witness :
  let f := {| RequestID := 1; Cmd := 1; Flags := 0; Payload := [xab; xcd] |} in
  readFrame (mkDFR (mkReader [x00; x00; x00; x0e; x00; x00; x00; x00;
                              x00; x00; x00; x01; x00; x00; x00; x01;
                              xab; xcd; xff]) 0)
  = ((Some f, None), mkDFR (mkReader [xff]) 0) /\
  RequestID f = 1 /\ Flags f = 0 /\ Cmd f = 1 /\
  Payload f = [xab; xcd] /\ Z.of_nat (length (Payload f)) = 14 - 12.
Proof.
  intros f. split; [reflexivity |].
  pose proof (readFrame_decodes_header 0
                x00 x00 x00 x0e x00 x00 x00 x00 x00 x00 x00 x01 x00 x00 x00 x01
                [xab; xcd; xff] f (mkDFR (mkReader [xff]) 0) eq_refl)
    as (H1 & H2 & H3 & _ & H5 & H6 & _).
  exact (conj H1 (conj H2 (conj H3 (conj H5 H6)))).
Defined.

(** C3. With [maxFrameSize = M > 0], a header whose [size] exceeds [M]
    makes [readFrame] return [ErrFrameTooLarge]; the reader is left right
    behind the header, no payload byte has been read. *)
Theorem readFrame_too_large
    (dfr : defaultFrameReader) (header tail : list byte) :
  length header = 16%nat ->
  wire (reader dfr) = header ++ tail ->
  0 < maxFrameSize dfr ->
  maxFrameSize dfr < Uint32 header ->
  readFrame dfr
  = ((None, Some ErrFrameTooLarge), set_reader dfr (mkReader tail)).
Proof.
  intros Hlen Hwire Hpos Hgt.
  rewrite (readFrame_header dfr header tail Hlen Hwire). cbv zeta.
  pose proof (Uint32_range header) as Hr.
  assert (Hm : uint32 (maxFrameSize dfr) = maxFrameSize dfr)
    by (unfold uint32; apply Z.mod_small; lia).
  rewrite Hm.
  destruct (Z.ltb_spec 0 (maxFrameSize dfr)); [| lia].
  destruct (Z.ltb_spec (maxFrameSize dfr) (Uint32 header)); [| lia].
  reflexivity.
Qed.

(** Scenario D of the specification: [maxFrameSize = 1024] and a header
    announcing 4096 bytes. *)
Lemma readFrame_too_large_witness :
  readFrame (mkDFR (mkReader [x00; x00; x10; x00; x00; x00; x00; x00;
                              x00; x00; x00; x01; x00; x00; x00; x01;
                              xab; xcd]) 1024)
  = ((None, Some ErrFrameTooLarge), mkDFR (mkReader [xab; xcd]) 1024).
Proof.
  apply (readFrame_too_large
           (mkDFR (mkReader [x00; x00; x10; x00; x00; x00; x00; x00;
                             x00; x00; x00; x01; x00; x00; x00; x01;
                             xab; xcd]) 1024)
           [x00; x00; x10; x00; x00; x00; x00; x00;
            x00; x00; x00; x01; x00; x00; x00; x01] [xab; xcd]).
  - reflexivity.
  - reflexivity.
  - reflexivity.
  - reflexivity.
Defined.

(** C2, as stated, fails: with [maxFrameSize = 5] a header with
    [size = 8] is answered with [ErrFrameTooLarge], because the upper
    bound is tested first. *)
Lemma readFrame_small_size_counterexample :
  let header := [x00; x00; x00; x08; x00; x00; x00; x00;
                 x00; x00; x00; x01; x00; x00; x00; x01] in
  let dfr := mkDFR (mkReader (header ++ [xab; xcd])) 5 in
  Uint32 header = 8 /\
  8 < 12 /\
  fst (readFrame dfr) = (None, Some ErrFrameTooLarge) /\
  fst (readFrame dfr) <> (None, Some ErrInvalidFrameSize).
Proof.
  intros header dfr.
  split; [reflexivity |]. split; [lia |].
  split; [reflexivity | discriminate].
Qed.

(** C2, amended. A header with [size < 12] makes [readFrame] return
    [ErrInvalidFrameSize], unless [maxFrameSize > 0] and [size] exceeds
    [uint32(maxFrameSize)], where the earlier test answers
    [ErrFrameTooLarge]; either way no frame is returned and the reader is
    left right behind the header. *)
Theorem readFrame_small_size
    (dfr : defaultFrameReader) (header tail : list byte) :
  length header = 16%nat ->
  wire (reader dfr) = header ++ tail ->
  Uint32 header < 12 ->
  readFrame dfr
  = ((None,
      Some (if (0 <? maxFrameSize dfr)
               && (uint32 (maxFrameSize dfr) <? Uint32 header)
            then ErrFrameTooLarge else ErrInvalidFrameSize)),
     set_reader dfr (mkReader tail)).
Proof.
  intros Hlen Hwire Hlt.
  rewrite (readFrame_header dfr header tail Hlen Hwire). cbv zeta.
  destruct ((0 <? maxFrameSize dfr)
            && (uint32 (maxFrameSize dfr) <? Uint32 header)); [reflexivity |].
  destruct (Z.ltb_spec (Uint32 header) 12); [reflexivity | lia].
Qed.

Lemma readFrame_small_size_witness :
  readFrame (mkDFR (mkReader [x00; x00; x00; x08; x00; x00; x00; x00;
                              x00; x00; x00; x01; x00; x00; x00; x01;
                              xab; xcd]) 0)
  = ((None, Some ErrInvalidFrameSize), mkDFR (mkReader [xab; xcd]) 0).
Proof.
  apply (readFrame_small_size
           (mkDFR (mkReader [x00; x00; x00; x08; x00; x00; x00; x00;
                             x00; x00; x00; x01; x00; x00; x00; x01;
                             xab; xcd]) 0)
           [x00; x00; x00; x08; x00; x00; x00; x00;
            x00; x00; x00; x01; x00; x00; x00; x01] [xab; xcd]).
  - reflexivity.
  - reflexivity.
  - vm_compute. reflexivity.
Defined.

(** ** ReadFrame *)

Lemma readFrame_error_no_frame (dfr dfr1 : defaultFrameReader)
    (fo : option Frame) (err : Error) :
  readFrame dfr = ((fo, Some err), dfr1) -> fo = None.
Proof.
  unfold readFrame.
  destruct (ReadBytes (reader dfr) 16) as [[header | e] r1];
    [| intros [= <- _ _]; reflexivity].
  destruct (_ && _); [intros [= <- _ _]; reflexivity |].
  destruct (_ <? 12); [intros [= <- _ _]; reflexivity |].
  destruct (ReadBytes r1 _) as [[payload | e] r2]; intros [= <- _ _] || intros [=].
  reflexivity.
Qed.

Lemma ReadBytes_wire (r r' : Reader) (n : nat) (bs : list byte) :
  ReadBytes r n = (inl bs, r') ->
  (length (wire r') + n = length (wire r))%nat.
Proof.
  unfold ReadBytes.
  destruct (Nat.leb_spec n (length (wire r))); intros [= <- <-].
  cbn [wire]. rewrite length_skipn. lia.
Qed.

(** A frame that is returned used up at least its 16 header bytes. *)
Lemma readFrame_consumes (dfr dfr1 : defaultFrameReader) (f : Frame) :
  readFrame dfr = ((Some f, None), dfr1) ->
  (length (wire (reader dfr1)) + 16 <= length (wire (reader dfr)))%nat.
Proof.
  unfold readFrame.
  destruct (ReadBytes (reader dfr) 16) as [[header | e] r1] eqn:E1;
    [| intros [=]].
  destruct (_ && _); [intros [=] |].
  destruct (_ <? 12); [intros [=] |].
  destruct (ReadBytes r1 _) as [[payload | e] r2] eqn:E2; intros [=].
  subst. cbn [set_reader reader].
  apply ReadBytes_wire in E1. apply ReadBytes_wire in E2. lia.
Qed.

Section ReadFrameProps.
Context {ConnStreams Stream : Type} `{!StreamOps ConnStreams Stream}.

Lemma ReadFrame_no_RST (fuel : nat) :
  forall (dfr : defaultFrameReader) (cs : ConnStreams)
         (f : Frame) (err : option Error) (st : rf_state),
    ReadFrame fuel dfr cs = Ret (Some f, err) st ->
    IsRst (Flags f) = false.
Proof.
  induction fuel as [| fuel IH]; intros dfr cs f err st; [intros [=] |].
  cbn [ReadFrame].
  destruct (readFrame dfr) as [[fo [e |]] dfr1] eqn:E.
  - apply readFrame_error_no_frame in E. subst fo. intros [=].
  - destruct fo as [f0 |]; [| intros [=]].
    destruct (IsRst (Flags f0)) eqn:Erst; [apply IH |].
    destruct (CreateOrGetStream cs (RequestID f0) (Flags f0)) as [[s loaded] cs1].
    destruct (TryBind s f0 cs1) as [[|] cs2].
    + intros [= <- _ _]. exact Erst.
    + destruct (AddInFrame s f0 cs2) as [[|] cs3]; [apply IH |].
      destruct (DoneClosed s cs3); [apply IH | intros [=]].
Qed.

Lemma ReadFrame_RST_step (fuel : nat) (dfr dfr1 : defaultFrameReader)
    (cs : ConnStreams) (f : Frame) :
  readFrame dfr = ((Some f, None), dfr1) ->
  IsRst (Flags f) = true ->
  ReadFrame (S fuel) dfr cs
  = ReadFrame fuel dfr1
      match GetStream cs (RequestID f) (Flags f) with
      | Some s => ResetByPeer s cs
      | None => cs
      end.
Proof. intros E Erst. cbn [ReadFrame]. now rewrite E, Erst. Qed.

(** On a connection that delivers finitely many bytes the loop ends:
    every pass uses up a header. *)
Lemma ReadFrame_enough_fuel (fuel : nat) :
  forall (dfr : defaultFrameReader) (cs : ConnStreams),
    (length (wire (reader dfr)) < 16 * fuel)%nat ->
    ReadFrame fuel dfr cs <> OutOfFuel.
Proof.
  induction fuel as [| fuel IH]; intros dfr cs Hlen; [lia |].
  cbn [ReadFrame].
  destruct (readFrame dfr) as [[fo [e |]] dfr1] eqn:E; [discriminate |].
  destruct fo as [f0 |]; [| discriminate].
  apply readFrame_consumes in E.
  assert (Hlen1 : (length (wire (reader dfr1)) < 16 * fuel)%nat) by lia.
  destruct (IsRst (Flags f0)); [now apply IH |].
  destruct (CreateOrGetStream cs (RequestID f0) (Flags f0)) as [[s loaded] cs1].
  destruct (TryBind s f0 cs1) as [[|] cs2]; [discriminate |].
  destruct (AddInFrame s f0 cs2) as [[|] cs3]; [now apply IH |].
  destruct (DoneClosed s cs3); [now apply IH | discriminate].
Qed.

(** C4. [ReadFrame] never returns a frame whose flags have the RST bit:
    a frame read with that bit makes it call [ResetByPeer] on the stream
    registered under the frame's [requestID], if there is one, drop the
    frame, and go on with the next frame on the wire; and on a wire of
    finitely many bytes it comes to an end. *)
Theorem ReadFrame_drops_RST (fuel : nat) (dfr : defaultFrameReader)
    (cs : ConnStreams) :
  (forall (f : Frame) (err : option Error) (st : rf_state),
      ReadFrame fuel dfr cs = Ret (Some f, err) st ->
      IsRst (Flags f) = false) /\
  (forall (f : Frame) (dfr1 : defaultFrameReader),
      readFrame dfr = ((Some f, None), dfr1) ->
      IsRst (Flags f) = true ->
      ReadFrame (S fuel) dfr cs
      = ReadFrame fuel dfr1
          match GetStream cs (RequestID f) (Flags f) with
          | Some s => ResetByPeer s cs
          | None => cs
          end) /\
  ((length (wire (reader dfr)) < 16 * fuel)%nat ->
   ReadFrame fuel dfr cs <> OutOfFuel).
Proof.
  split; [apply ReadFrame_no_RST |].
  split; [intros f dfr1; apply ReadFrame_RST_step |].
  apply ReadFrame_enough_fuel.
Qed.
End ReadFrameProps.

(** A reset of stream 7, which exists, followed by the opening frame of
    request 8: the reset marks stream 7 and wakes its consumers, and the
    frame of request 8 is the one returned. *)
Lemma ReadFrame_drops_RST_witness :
  let rst := {| RequestID := 7; Cmd := 0; Flags := 4; Payload := [] |} in
  let f8 := {| RequestID := 8; Cmd := 1; Flags := 0; Payload := [xaa] |} in
  let wire1 := [x00; x00; x00; x0d; x00; x00; x00; x00;
                x00; x00; x00; x08; x00; x00; x00; x01; xaa] in
  let dfr0 := mkDFR (mkReader ([x00; x00; x00; x0c; x00; x00; x00; x00;
                                x00; x00; x00; x07; x04; x00; x00; x00]
                               ++ wire1)) 0 in
  let cs0 : gmap Z stream := {[ 7 := mkStream Open true [] false ]} in
  IsRst (Flags f8) = false /\
  ReadFrame 4 dfr0 cs0
  = ReadFrame 3 (mkDFR (mkReader wire1) 0) (ResetByPeer 7 cs0) /\
  ReadFrame 3 dfr0 cs0 <> OutOfFuel /\
  ResetByPeer 7 cs0 !! 7 = Some (mkStream Reset true [] true).
Proof.
  intros rst f8 wire1 dfr0 cs0.
  destruct (ReadFrame_drops_RST 3 dfr0 cs0) as (H1 & H2 & H3).
  split.
  { apply (H1 f8 None
              (mkDFR (mkReader []) 0,
               <[8 := mkStream Open true [] false]> (ResetByPeer 7 cs0))).
    vm_compute. reflexivity. }
  split.
  { apply (H2 rst (mkDFR (mkReader wire1) 0)); reflexivity. }
  split.
  { apply H3. cbn. lia. }
  reflexivity.
Defined.

(** ** ServeMux *)

Lemma rw_free_spec (l : RWMutex) :
  rw_free l = true <-> l = mkRW false 0.
Proof.
  destruct l as [[|] [| n]]; cbn; split; intros H; congruence.
Qed.

(** [Handle] on a mux whose lock is free, case by case. *)
Lemma Handle_free (cmd : Z) (handler : option Handler)
    (middleware : list MiddlewareFunc) (mux : ServeMux.t) :
  rw_free (ServeMux.mu mux) = true ->
  ServeMux.Handle cmd handler middleware mux =
    match handler with
    | None => Panic "qrpc: nil handler" mux
    | Some h =>
        match ServeMux.lookup mux cmd with
        | Some _ => Panic "qrpc: multiple registrations" mux
        | None =>
            Ret tt
              (ServeMux.set_m mux
                 (Some (<[cmd := HandlerWithMW h middleware]>
                          match ServeMux.m mux with
                          | Some tbl => tbl
                          | None => ∅
                          end)))
        end
    end.
Proof.
  intros Hfree. apply rw_free_spec in Hfree.
  destruct mux as [l tbl ev]. cbn [ServeMux.mu] in Hfree. subst l.
  unfold ServeMux.Handle. cbn.
  destruct handler as [h |]; [| reflexivity].
  unfold ServeMux.lookup. cbn.
  destruct tbl as [tbl |]; cbn; [destruct (tbl !! cmd) |]; reflexivity.
Qed.

(** C8. On a mux whose lock is free, [Handle] panics exactly when the
    handler is nil or [cmd] already has a handler; otherwise it returns
    with [cmd] mapped to the handler wrapped with the middleware, every
    other [cmd] as before and the lock free again, so that [ServeQRPC]
    dispatches a request for [cmd] to it. *)
Theorem Handle_panics_iff (cmd : Z) (handler : option Handler)
    (middleware : list MiddlewareFunc) (mux : ServeMux.t) :
  rw_free (ServeMux.mu mux) = true ->
  ((exists msg mux', ServeMux.Handle cmd handler middleware mux = Panic msg mux')
   <-> handler = None \/ is_Some (ServeMux.lookup mux cmd)) /\
  (forall h : Handler,
      handler = Some h ->
      ServeMux.lookup mux cmd = None ->
      exists mux',
        ServeMux.Handle cmd handler middleware mux = Ret tt mux' /\
        ServeMux.lookup mux' cmd = Some (HandlerWithMW h middleware) /\
        (forall cmd', cmd' <> cmd ->
                      ServeMux.lookup mux' cmd' = ServeMux.lookup mux cmd') /\
        ServeMux.mu mux' = ServeMux.mu mux /\
        (forall (w : FrameWriter) (r : RequestFrame),
            rf_Cmd r = cmd ->
            ServeMux.ServeQRPC w r mux'
            = Ret tt (ServeMux.emit mux'
                        (EvServeQRPC (HandlerWithMW h middleware) w r)))).
Proof.
  intros Hfree. rewrite (Handle_free _ _ _ _ Hfree). split.
  - split.
    + intros (msg & mux' & H).
      destruct handler as [h |]; [| now left].
      destruct (ServeMux.lookup mux cmd) as [h' |] eqn:E; [| discriminate].
      right. eauto.
    + intros [-> | [h' Hh']]; [eauto |].
      destruct handler as [h |]; [| eauto].
      rewrite Hh'. eauto.
  - intros h -> Hnone. rewrite Hnone.
    eexists. split; [reflexivity |].
    assert (Hlk : forall c,
               ServeMux.lookup
                 (ServeMux.set_m mux
                    (Some (<[cmd := HandlerWithMW h middleware]>
                             match ServeMux.m mux with
                             | Some tbl => tbl
                             | None => ∅
                             end))) c
               = if decide (cmd = c) then Some (HandlerWithMW h middleware)
                 else ServeMux.lookup mux c).
    { intros c. unfold ServeMux.lookup, ServeMux.set_m. cbn.
      rewrite lookup_insert. destruct (decide (cmd = c)); [reflexivity |].
      destruct (ServeMux.m mux); [reflexivity | apply lookup_empty]. }
    split; [rewrite Hlk; destruct (decide (cmd = cmd)); congruence |].
    split; [intros c Hc; rewrite Hlk; destruct (decide (cmd = c)); congruence |].
    split; [reflexivity |].
    intros w r Hr. unfold ServeMux.ServeQRPC.
    apply rw_free_spec in Hfree.
    cbn [ServeMux.set_m ServeMux.mu]. rewrite Hfree. cbn [rw_RLock writer readers].
    assert (Hlk' : forall l c,
               ServeMux.lookup
                 (ServeMux.set_mu
                    (ServeMux.set_m mux
                       (Some (<[cmd := HandlerWithMW h middleware]>
                                match ServeMux.m mux with
                                | Some tbl => tbl
                                | None => ∅
                                end))) l) c
               = if decide (cmd = c) then Some (HandlerWithMW h middleware)
                 else ServeMux.lookup mux c).
    { intros l c. rewrite <- Hlk. reflexivity. }
    rewrite Hlk', Hr. destruct (decide (cmd = cmd)); [| congruence].
    cbn. unfold ServeMux.emit, ServeMux.set_mu, ServeMux.set_m. cbn.
    now rewrite Hfree.
Qed.

(** Scenario F of the specification (a second registration for the same
    [cmd] panics) and a first registration on a new mux. *)
Lemma Handle_panics_iff_witness :
  let mux1 := ServeMux.set_m ServeMux.NewServeMux
                (Some {[ 1 := HandlerWithMW (HandlerFunc 5) [] ]}) in
  (exists msg mux',
      ServeMux.Handle 1 (Some (HandlerFunc 6)) [] mux1 = Panic msg mux') /\
  (exists mux',
      ServeMux.Handle 1 (Some (HandlerFunc 5)) [3%nat] ServeMux.NewServeMux
      = Ret tt mux' /\
      ServeMux.lookup mux' 1 = Some (HandlerWithMW (HandlerFunc 5) [3%nat])).
Proof.
  intros mux1. split.
  - apply (proj1 (Handle_panics_iff 1 (Some (HandlerFunc 6)) [] mux1 eq_refl)).
    right. exists (HandlerWithMW (HandlerFunc 5) []). reflexivity.
  - destruct (proj2 (Handle_panics_iff 1 (Some (HandlerFunc 5)) [3%nat]
                       ServeMux.NewServeMux eq_refl)
                (HandlerFunc 5) eq_refl eq_refl)
      as (mux' & H1 & H2 & _).
    exists mux'. split; assumption.
Defined.

(** While a reader or a writer holds the lock, [Handle] waits. *)
Remark Handle_waits_for_lock (cmd : Z) (handler : option Handler)
    (middleware : list MiddlewareFunc) (mux : ServeMux.t) :
  rw_free (ServeMux.mu mux) = false ->
  ServeMux.Handle cmd handler middleware mux = Parked mux.
Proof. intros H. unfold ServeMux.Handle, rw_Lock. now rewrite H. Qed.

(** C10. For a request whose [cmd] has no handler, [ServeQRPC] logs the
    error, closes the request frame and returns: no handler is invoked and
    the handler table is as before. *)
Theorem ServeQRPC_unregistered (w : FrameWriter) (r : RequestFrame)
    (mux : ServeMux.t) :
  writer (ServeMux.mu mux) = false ->
  ServeMux.lookup mux (rf_Cmd r) = None ->
  exists mux',
    ServeMux.ServeQRPC w r mux = Ret tt mux' /\
    ServeMux.events mux'
    = ServeMux.events mux
      ++ [EvLogError "cmd not registered" (rf_Cmd r); EvClose r] /\
    (forall (h : Handler) (w' : FrameWriter) (r' : RequestFrame),
        ServeMux.events mux'
        <> ServeMux.events mux ++ [EvServeQRPC h w' r']) /\
    ServeMux.m mux' = ServeMux.m mux.
Proof.
  intros Hw Hnone. unfold ServeMux.ServeQRPC, rw_RLock. rewrite Hw.
  change (ServeMux.lookup (ServeMux.set_mu mux _) (rf_Cmd r))
    with (ServeMux.lookup mux (rf_Cmd r)).
  rewrite Hnone. eexists. split; [reflexivity |].
  cbn [ServeMux.emit ServeMux.set_mu ServeMux.events ServeMux.m].
  rewrite <- app_assoc. cbn [app].
  split; [reflexivity |]. split; [| reflexivity].
  intros h w' r' H. apply app_inv_head in H. discriminate.
Qed.

Lemma ServeQRPC_unregistered_witness :
  let r := mkRequestFrame 1 5 in
  exists mux',
    ServeMux.ServeQRPC 9%nat r ServeMux.NewServeMux = Ret tt mux' /\
    ServeMux.events mux' = [EvLogError "cmd not registered" 5; EvClose r] /\
    ServeMux.m mux' = None.
Proof.
  intros r.
  destruct (ServeQRPC_unregistered 9%nat r ServeMux.NewServeMux eq_refl eq_refl)
    as (mux' & H1 & H2 & _ & H3).
  exists mux'. split; [exact H1 |]. split; [exact H2 | exact H3].
Defined.

(** On that path [ServeQRPC] returns before [mux.mu.RUnlock()]: the read
    lock stays held, and a later [Handle] waits for it. *)
Remark ServeQRPC_unregistered_keeps_RLock :
  let r := mkRequestFrame 1 5 in
  exists mux',
    ServeMux.ServeQRPC 9%nat r ServeMux.NewServeMux = Ret tt mux' /\
    ServeMux.mu mux' = mkRW false 1 /\
    ServeMux.Handle 5 (Some (HandlerFunc 1)) [] mux' = Parked mux'.
Proof. intros r. eexists. split; [reflexivity |]. split; reflexivity. Qed.

(** ** The connection registry *)

Create HintDb go discriminated.
#[local] Hint Unfold mbind M_bind bind mret M_ret ret deref update index when
  modify emit gets panic fatal park out_of_fuel close_untrackedCh
  recv_untrackedCh Lock Unlock wg_Wait close_doneChan : go.

(** Unfold the monad, then reduce the projections of updated records. *)
Ltac go_unfold := repeat autounfold with go.
Ltac go_cbn :=
  cbn [bindings mu listeners doneChan_closed shutdownFunc done id2Conn
       activeConn throttle wg heap kickOrder trace
       set_mu set_listeners set_doneChan_closed set_shutdownFunc set_done
       set_id2Conn set_activeConn set_wg set_heap set_kickOrder log
       rwc idx id untrack_flag untrackedCh_closed readFrameCh_cap closed
       set_untracked set_untrackedCh_closed set_closed GetID GetWriter
       negb andb orb fst snd mutex_Lock mutex_Unlock Z.eqb].

(** The first [untrack] of a connection, field by field. *)
Lemma untrack_first (srv : Server) (sc : connptr) (kicked : bool)
    (c : serveconn) (tbl : gmap string connptr) (act : gset connptr)
    (b : ServerBinding) :
  heap srv !! sc = Some c ->
  untrack_flag c = 0 ->
  untrackedCh_closed c = false ->
  id2Conn srv !! idx c = Some tbl ->
  activeConn srv !! idx c = Some act ->
  bindings srv !! idx c = Some b ->
  exists srv1,
    untrack sc kicked srv = Ret (true, sc) srv1 /\
    heap srv1
    = <[sc := set_untrackedCh_closed (set_untracked c 1) true]> (heap srv) /\
    id2Conn srv1 = (if bool_decide (id c = "") then id2Conn srv
                    else <[idx c := delete (id c) tbl]> (id2Conn srv)) /\
    activeConn srv1 = <[idx c := act ∖ {[sc]}]> (activeConn srv) /\
    trace srv1 = trace srv ++ (if kicked then
                                 match OnKickCB b with
                                 | Some cb => [EvOnKick cb (GetWriter sc)]
                                 | None => []
                                 end
                               else []) /\
    kickOrder srv1 = kickOrder srv /\
    bindings srv1 = bindings srv /\
    (mu srv1, listeners srv1, doneChan_closed srv1, shutdownFunc srv1,
     done srv1, throttle srv1, wg srv1)
    = (mu srv, listeners srv, doneChan_closed srv, shutdownFunc srv,
       done srv, throttle srv, wg srv).
Proof.
  intros Hsc Hflag Hch Htbl Hact Hb.
  unfold untrack, GetID. go_unfold.
  rewrite Hsc, Hflag. go_cbn. rewrite Hsc. go_cbn.
  destruct (bool_decide (id c = "")); go_cbn; [| rewrite Htbl; go_cbn];
    rewrite Hact; go_cbn;
    (destruct kicked; go_cbn;
     [rewrite Hb; go_cbn; destruct (OnKickCB b); go_cbn |]);
    rewrite lookup_insert_eq; go_cbn; rewrite Hch; go_cbn;
    rewrite lookup_insert_eq; go_cbn;
    (eexists; split; [reflexivity |]); go_cbn;
    rewrite insert_insert_eq, ?app_nil_r; repeat split.
Qed.

(** An [untrack] that loses the compare-and-swap touches nothing. *)
Lemma untrack_again (srv : Server) (sc : connptr) (kicked : bool)
    (c : serveconn) :
  heap srv !! sc = Some c ->
  untrack_flag c <> 0 ->
  untrack sc kicked srv = Ret (false, sc) srv.
Proof.
  intros Hsc Hflag. unfold untrack. go_unfold. rewrite Hsc.
  destruct (Z.eqb_spec (untrack_flag c) 0); [contradiction | reflexivity].
Qed.

(** C6. The first [untrack(sc, kicked)] deletes the entry of [sc]'s id
    (when the id is not empty), removes [sc] from [activeConn], calls
    [OnKickCB] with [sc]'s writer when [kicked] and a callback is
    configured, closes the signal channel and returns [true]; every later
    call returns [false] with the same channel, which is closed, and
    leaves the whole state as it is. *)
Theorem untrack_once (srv : Server) (sc : connptr) (kicked : bool)
    (c : serveconn) (tbl : gmap string connptr) (act : gset connptr)
    (b : ServerBinding) :
  heap srv !! sc = Some c ->
  untrack_flag c = 0 ->
  untrackedCh_closed c = false ->
  id2Conn srv !! idx c = Some tbl ->
  activeConn srv !! idx c = Some act ->
  bindings srv !! idx c = Some b ->
  exists srv1 c1,
    untrack sc kicked srv = Ret (true, sc) srv1 /\
    id2Conn srv1 = (if bool_decide (id c = "") then id2Conn srv
                    else <[idx c := delete (id c) tbl]> (id2Conn srv)) /\
    activeConn srv1 = <[idx c := act ∖ {[sc]}]> (activeConn srv) /\
    trace srv1 = trace srv ++ (if kicked then
                                 match OnKickCB b with
                                 | Some cb => [EvOnKick cb (GetWriter sc)]
                                 | None => []
                                 end
                               else []) /\
    heap srv1 !! sc = Some c1 /\
    untrackedCh_closed c1 = true /\
    (forall kicked' : bool, untrack sc kicked' srv1 = Ret (false, sc) srv1).
Proof.
  intros Hsc Hflag Hch Htbl Hact Hb.
  destruct (untrack_first srv sc kicked c tbl act b Hsc Hflag Hch Htbl Hact Hb)
    as (srv1 & Hrun & Hheap & Hid & Hac & Htr & _).
  exists srv1, (set_untrackedCh_closed (set_untracked c 1) true).
  assert (Hsc1 : heap srv1 !! sc
                 = Some (set_untrackedCh_closed (set_untracked c 1) true))
    by (rewrite Hheap; apply lookup_insert_eq).
  repeat (split; [assumption || reflexivity |]).
  intros kicked'. apply (untrack_again srv1 sc kicked' _ Hsc1).
  cbn. discriminate.
Qed.

Lemma untrack_once_witness :
  exists srv1,
    untrack 0%nat true example_server = Ret (true, 0%nat) srv1 /\
    id2Conn srv1 = [∅] /\
    activeConn srv1 = [{[ 1%nat ]}] /\
    trace srv1 = [EvOnKick 7 (GetWriter 0%nat)] /\
    untrack 0%nat false srv1 = Ret (false, 0%nat) srv1.
Proof.
  destruct (untrack_once example_server 0%nat true (example_conn 3)
              {[ "u1" := 0%nat ]} {[ 0%nat; 1%nat ]} example_binding
              eq_refl eq_refl eq_refl eq_refl eq_refl eq_refl)
    as (srv1 & c1 & Hrun & Hid & Hact & Htr & _ & _ & Hagain).
  exists srv1. split; [exact Hrun |].
  split; [rewrite Hid; vm_compute; reflexivity |].
  split; [rewrite Hact; vm_compute; reflexivity |].
  split; [exact Htr | apply Hagain].
Defined.

(** ** bindID *)

Lemma bind_Ret {A B} (c : M A) (k : A -> M B) (srv srv' : Server) (a : A) :
  c srv = Ret a srv' -> (c ≫= k) srv = k a srv'.
Proof. intros H. unfold mbind, M_bind, bind. now rewrite H. Qed.

Lemma closeUntracked_run (srv : Server) (sc : connptr) (c : serveconn) :
  heap srv !! sc = Some c ->
  closeUntracked sc srv
  = Ret (match rwc c with
         | Some k => close_err k
         | None => None
         end)
        (log (set_heap srv (<[sc := set_closed c true]> (heap srv)))
             (EvCloseUntracked sc)).
Proof.
  intros Hsc. unfold closeUntracked. go_unfold. rewrite Hsc. go_cbn.
  rewrite Hsc. reflexivity.
Qed.

(** The id is free: the insert succeeds at once. *)
Lemma bindID_check_free (n : nat) (srv : Server) (sc : connptr) (id : string)
    (i : nat) (kick : bool) (tbl : gmap string connptr) :
  id2Conn srv !! i = Some tbl ->
  tbl !! id = None ->
  bindID_check (S n) sc id i kick srv
  = Ret (kick, kickOrder srv)
        (set_id2Conn srv (<[i := <[id := sc]> tbl]> (id2Conn srv))).
Proof.
  intros Htbl Hid. cbn [bindID_check]. go_unfold. rewrite Htbl, Hid.
  reflexivity.
Qed.

(** Another connection holds the id and has not been untracked: one pass
    through [check] kicks it and goes back to the insert. *)
Lemma bindID_check_kick_step (n : nat) (srv : Server) (sc vsc : connptr)
    (id : string) (i : nat) (kick : bool) (tbl : gmap string connptr)
    (vc : serveconn) (act : gset connptr) (b : ServerBinding) :
  id2Conn srv !! i = Some tbl ->
  tbl !! id = Some vsc ->
  vsc <> sc ->
  heap srv !! vsc = Some vc ->
  idx vc = i ->
  GetID vc = id ->
  id <> "" ->
  untrack_flag vc = 0 ->
  untrackedCh_closed vc = false ->
  activeConn srv !! i = Some act ->
  bindings srv !! i = Some b ->
  exists srv',
    bindID_check (S n) sc id i kick srv = bindID_check n sc id i true srv' /\
    kickOrder srv' = uint64 (kickOrder srv + 1) /\
    id2Conn srv' = <[i := delete id tbl]> (id2Conn srv) /\
    activeConn srv' = <[i := act ∖ {[vsc]}]> (activeConn srv) /\
    heap srv'
    = <[vsc := set_closed (set_untrackedCh_closed (set_untracked vc 1) true)
                 true]> (heap srv) /\
    trace srv'
    = trace srv
      ++ match OnKickCB b with
         | Some cb => [EvOnKick cb (GetWriter vsc)]
         | None => []
         end
      ++ [EvCloseUntracked vsc]
      ++ (if CounterMetric b
          then [EvKickoffMetric
                  (unwrap_OpError match rwc vc with
                                  | Some k => close_err k
                                  | None => None
                                  end)]
          else []).
Proof.
  intros Htbl Hid Hne Hvsc Hidx Hvid Hnonempty Hflag Hch Hact Hb.
  subst i.
  destruct (untrack_first srv vsc true vc tbl act b Hvsc Hflag Hch Htbl Hact Hb)
    as (srv1 & Hrun & Hheap & Hid2 & Hac & Htr & Hko & Hbs & _).
  unfold GetID in Hvid. rewrite Hvid in Hid2.
  rewrite bool_decide_eq_false_2 in Hid2 by assumption.
  assert (Hvsc1 : heap srv1 !! vsc
                  = Some (set_untrackedCh_closed (set_untracked vc 1) true))
    by (rewrite Hheap; apply lookup_insert_eq).
  pose proof (closeUntracked_run srv1 vsc _ Hvsc1) as Hclose.
  cbn [bindID_check].
  erewrite bind_Ret by (unfold index; rewrite Htbl; reflexivity).
  rewrite Hid, bool_decide_eq_false_2 by assumption.
  erewrite bind_Ret by exact Hrun.
  cbv beta iota. cbn [negb when].
  erewrite bind_Ret by reflexivity.
  erewrite bind_Ret by exact Hclose.
  erewrite bind_Ret by (unfold index; go_cbn; rewrite Hbs, Hb; reflexivity).
  go_cbn.
  destruct (CounterMetric b);
    (erewrite bind_Ret by reflexivity); (erewrite bind_Ret by reflexivity);
    (eexists; split; [reflexivity |]); go_cbn;
    rewrite Hko, Hid2, Hac, Hheap, Htr, insert_insert_eq, <- ?app_assoc;
    repeat split.
Qed.

(** The holder's [untrack] has begun elsewhere and its channel is still
    open: [bindID] waits on the channel. *)
Lemma bindID_check_waits (n : nat) (srv : Server) (sc vsc : connptr)
    (id : string) (i : nat) (kick : bool) (tbl : gmap string connptr)
    (vc : serveconn) :
  id2Conn srv !! i = Some tbl ->
  tbl !! id = Some vsc ->
  vsc <> sc ->
  heap srv !! vsc = Some vc ->
  untrack_flag vc <> 0 ->
  untrackedCh_closed vc = false ->
  bindID_check (S n) sc id i kick srv = Parked srv.
Proof.
  intros Htbl Hid Hne Hvsc Hflag Hch.
  cbn [bindID_check].
  erewrite bind_Ret by (unfold index; rewrite Htbl; reflexivity).
  rewrite Hid, bool_decide_eq_false_2 by assumption.
  erewrite bind_Ret by (apply (untrack_again srv vsc true vc Hvsc Hflag)).
  cbv beta iota. cbn [negb when].
  unfold recv_untrackedCh. go_unfold. now rewrite Hvsc, Hch.
Qed.

(** C5. [bindID(sc, id)]: when nobody holds [id] the insert succeeds at
    once and the current [kickOrder] is returned; when another connection
    [vsc] holds it, [vsc] is untracked with [kicked = true] and closed,
    [kickOrder] is incremented, the insert is retried and succeeds, and the
    new [kickOrder] is returned with [id] bound to [sc]; when the untrack
    of [vsc] has been started elsewhere and its channel is still open,
    [bindID] waits on that channel. *)
Theorem bindID_binds (srv : Server) (sc : connptr) (id : string)
    (c : serveconn) (tbl : gmap string connptr) :
  heap srv !! sc = Some c ->
  id2Conn srv !! idx c = Some tbl ->
  (tbl !! id = None ->
   forall n,
     bindID (S n) sc id srv
     = Ret (false, kickOrder srv)
           (set_id2Conn srv (<[idx c := <[id := sc]> tbl]> (id2Conn srv)))) /\
  (forall (vsc : connptr) (vc : serveconn) (act : gset connptr)
          (b : ServerBinding) (n : nat),
      tbl !! id = Some vsc ->
      vsc <> sc ->
      heap srv !! vsc = Some vc ->
      idx vc = idx c ->
      GetID vc = id ->
      id <> "" ->
      untrack_flag vc = 0 ->
      untrackedCh_closed vc = false ->
      activeConn srv !! idx c = Some act ->
      bindings srv !! idx c = Some b ->
      exists srv',
        bindID (S (S n)) sc id srv = Ret (true, kickOrder srv') srv' /\
        kickOrder srv' = uint64 (kickOrder srv + 1) /\
        id2Conn srv' = <[idx c := <[id := sc]> tbl]> (id2Conn srv) /\
        activeConn srv' = <[idx c := act ∖ {[vsc]}]> (activeConn srv) /\
        heap srv'
        = <[vsc := set_closed
                     (set_untrackedCh_closed (set_untracked vc 1) true) true]>
            (heap srv) /\
        trace srv'
        = trace srv
          ++ match OnKickCB b with
             | Some cb => [EvOnKick cb (GetWriter vsc)]
             | None => []
             end
          ++ [EvCloseUntracked vsc]
          ++ (if CounterMetric b
              then [EvKickoffMetric
                      (unwrap_OpError match rwc vc with
                                      | Some k => close_err k
                                      | None => None
                                      end)]
              else [])) /\
  (forall (vsc : connptr) (vc : serveconn) (n : nat),
      tbl !! id = Some vsc ->
      vsc <> sc ->
      heap srv !! vsc = Some vc ->
      untrack_flag vc <> 0 ->
      untrackedCh_closed vc = false ->
      bindID (S n) sc id srv = Parked srv).
Proof.
  intros Hsc Htbl.
  assert (Hderef : deref sc srv = Ret c srv) by (unfold deref; now rewrite Hsc).
  split; [| split].
  - intros Hfree n. unfold bindID. erewrite bind_Ret by exact Hderef.
    now apply bindID_check_free.
  - intros vsc vc act b n Hid Hne Hvsc Hidx Hvid Hnonempty Hflag Hch Hact Hb.
    unfold bindID. erewrite bind_Ret by exact Hderef.
    destruct (bindID_check_kick_step (S n) srv sc vsc id (idx c) false tbl vc
                act b Htbl Hid Hne Hvsc Hidx Hvid Hnonempty Hflag Hch Hact Hb)
      as (srv1 & Hstep & Hko & Hid2 & Hac & Hheap & Htr).
    assert (Hlt : (idx c < length (id2Conn srv))%nat)
      by (eapply lookup_lt_Some; exact Htbl).
    assert (Htbl1 : id2Conn srv1 !! idx c = Some (delete id tbl))
      by (rewrite Hid2; now apply list_lookup_insert_eq).
    rewrite Hstep.
    rewrite (bindID_check_free n srv1 sc id (idx c) true (delete id tbl) Htbl1
               (lookup_delete_eq tbl id)).
    exists (set_id2Conn srv1
              (<[idx c := <[id := sc]> (delete id tbl)]> (id2Conn srv1))).
    split; [reflexivity |]. go_cbn.
    rewrite Hid2, list_insert_insert_eq, insert_delete_eq.
    repeat split; assumption.
  - intros vsc vc n Hid Hne Hvsc Hflag Hch.
    unfold bindID. erewrite bind_Ret by exact Hderef.
    now apply (bindID_check_waits n srv sc vsc id (idx c) false tbl vc).
Qed.

(** Scenario C of the specification: connection 0 holds ["u1"] and
    connection 1 binds it; and a bind of a free id. *)
Lemma bindID_binds_witness :
  (exists srv',
      bindID 2 1%nat "u1" example_server = Ret (true, 42) srv' /\
      id2Conn srv' = [{[ "u1" := 1%nat ]}] /\
      activeConn srv' = [{[ 1%nat ]}] /\
      trace srv' = [EvOnKick 7 (GetWriter 0%nat); EvCloseUntracked 0%nat;
                    EvKickoffMetric None]) /\
  bindID 1 1%nat "u2" example_server
  = Ret (false, 41)
        (set_id2Conn example_server [{[ "u1" := 0%nat; "u2" := 1%nat ]}]).
Proof.
  destruct (bindID_binds example_server 1%nat "u1" (example_conn 4)
              {[ "u1" := 0%nat ]} eq_refl eq_refl) as (_ & Hkick & _).
  destruct (Hkick 0%nat (example_conn 3) {[ 0%nat; 1%nat ]} example_binding
              0%nat eq_refl ltac:(discriminate) eq_refl eq_refl eq_refl
              ltac:(discriminate) eq_refl eq_refl eq_refl eq_refl)
    as (srv' & Hrun & Hko & Hid & Hact & _ & Htr).
  split.
  - exists srv'. rewrite Hko in Hrun.
    split; [exact Hrun |].
    split; [rewrite Hid; vm_compute; reflexivity |].
    split; [rewrite Hact; vm_compute; reflexivity | exact Htr].
  - destruct (bindID_binds example_server 1%nat "u2" (example_conn 4)
                {[ "u1" := 0%nat ]} eq_refl eq_refl) as (Hfree & _ & _).
    rewrite (Hfree eq_refl 0%nat). vm_compute. reflexivity.
Defined.

(** A connection that asks again for the id it holds returns at once with
    the zero value of [ko], whatever [kickOrder] is. *)
Remark bindID_same_holder (n : nat) (srv : Server) (sc : connptr) (id : string)
    (c : serveconn) (tbl : gmap string connptr) :
  heap srv !! sc = Some c ->
  id2Conn srv !! idx c = Some tbl ->
  tbl !! id = Some sc ->
  bindID (S n) sc id srv = Ret (false, 0) srv.
Proof.
  intros Hsc Htbl Hid. unfold bindID. go_unfold. rewrite Hsc.
  cbn [bindID_check]. go_unfold. rewrite Htbl, Hid.
  now rewrite bool_decide_eq_true_2.
Qed.

(** A holder whose [untrack] is over but whose entry is still in
    [id2Conn] is never removed: every pass closes it again, increments
    [kickOrder] and finds it once more. *)
Remark bindID_stale_holder_loops :
  let stale := set_untrackedCh_closed (set_untracked (example_conn 3) 1) true in
  let srv := set_heap example_server (<[0%nat := stale]> (heap example_server)) in
  bindID 1 1%nat "u1" srv = OutOfFuel /\
  bindID 2 1%nat "u1" srv = OutOfFuel /\
  bindID 50 1%nat "u1" srv = OutOfFuel.
Proof. intros stale srv. repeat split; vm_compute; reflexivity. Qed.

(** ** Shutdown callbacks *)

(** Before the shutdown [OnShutdown] appends the callback and returns. *)
Lemma OnShutdown_before_Shutdown (srv : Server) (f : nat) :
  done srv = false ->
  mu srv = false ->
  OnShutdown f srv
  = Ret tt (set_mu (set_shutdownFunc (set_mu srv true) (shutdownFunc srv ++ [f]))
              false).
Proof.
  intros Hdone Hmu. unfold OnShutdown. go_unfold. rewrite Hmu. go_cbn.
  rewrite Hdone. reflexivity.
Qed.

(** C7 fails on the code. After the shutdown [OnShutdown(f)] unlocks the
    mutex, calls [f], appends [f], and then unlocks the mutex a second
    time: the call ends in the fatal error of unlocking an unlocked mutex
    instead of returning. *)
Theorem OnShutdown_after_Shutdown (srv : Server) (f : nat) :
  done srv = true ->
  mu srv = false ->
  exists srv',
    OnShutdown f srv = Fatal "sync: unlock of unlocked mutex" srv' /\
    trace srv' = trace srv ++ [EvCall f] /\
    shutdownFunc srv' = shutdownFunc srv ++ [f] /\
    (forall srv'' : Server, OnShutdown f srv <> Ret tt srv'').
Proof.
  intros Hdone Hmu. unfold OnShutdown. go_unfold. rewrite Hmu. go_cbn.
  rewrite Hdone. go_cbn.
  eexists. split; [reflexivity |]. go_cbn.
  repeat split. intros srv''. discriminate.
Qed.

(** A new server that is shut down and then given a callback. *)
Lemma OnShutdown_after_Shutdown_witness :
  exists srv1 srv2,
    Shutdown (NewServer [example_binding]) = Ret None srv1 /\
    OnShutdown 3%nat srv1 = Fatal "sync: unlock of unlocked mutex" srv2 /\
    trace srv2 = [EvCall 3%nat] /\
    shutdownFunc srv2 = [3%nat].
Proof.
  eexists. 
  destruct (OnShutdown_after_Shutdown
              (set_doneChan_closed
                 (set_mu (set_done (set_mu (NewServer [example_binding]) true)
                            true) false) true)
              3%nat eq_refl eq_refl)
    as (srv2 & Hrun & Htr & Hfs & _).
  exists srv2. split; [reflexivity |].
  split; [exact Hrun |]. split; [exact Htr | exact Hfs].
Defined.

(** ** The accept path *)

(** C9, as stated, fails: a TCP socket on which [SetKeepAlive] fails is
    returned by [Accept] with a nil error, and the accept loop adds it to
    [activeConn] and serves it. *)
Lemma Accept_keepalive_failure_counterexample :
  let k := {| conn_fd := 5; isTCPConn := true;
              setKeepAlive_err := Some (ErrOther 1);
              setKeepAlivePeriod_err := Some (ErrOther 2);
              close_err := None |} in
  let srv := NewServer [example_binding] in
  Accept (Some k, None) srv
  = Ret (Some k, None)
        (log (log srv (EvSetKeepAlive 5 true)) (EvSetKeepAlivePeriod 5 20)) /\
  match Serve_iter 0 0 (Some k, None) srv with
  | Ret (Continue _) srv' =>
      activeConn srv' = [{[ 0%nat ]}] /\
      (rwc <$> heap srv' !! 0%nat) = Some (Some k) /\
      trace srv' = [EvSetKeepAlive 5 true; EvSetKeepAlivePeriod 5 20;
                    EvServe 0%nat]
  | _ => False
  end.
Proof.
  intros k srv. split; [reflexivity |].
  vm_compute. repeat split.
Qed.

(** C9, amended. For every accepted socket that is a [TCPConn], [Accept]
    calls [SetKeepAlive(true)] and [SetKeepAlivePeriod(20s)], ignores what
    they return, and returns the socket with a nil error; the accept loop
    then hands it to [newConn], which adds the new connection to
    [activeConn], and starts serving it. *)
Theorem Accept_ignores_keepalive_errors (srv : Server) (i : nat) (tempDelay : Z)
    (k : Conn) (b : ServerBinding) (act : gset connptr) :
  isTCPConn k = true ->
  bindings srv !! i = Some b ->
  activeConn srv !! i = Some act ->
  throttle srv !! i = Some None ->
  Accept (Some k, None) srv
  = Ret (Some k, None)
        (log (log srv (EvSetKeepAlive (conn_fd k) true))
             (EvSetKeepAlivePeriod (conn_fd k) 20)) /\
  exists srv',
    let sc := fresh (dom (heap srv)) in
    Serve_iter i tempDelay (Some k, None) srv = Ret (Continue 0) srv' /\
    activeConn srv' = <[i := {[sc]} ∪ act]> (activeConn srv) /\
    (rwc <$> heap srv' !! sc) = Some (Some k) /\
    trace srv' = trace srv ++ [EvSetKeepAlive (conn_fd k) true;
                               EvSetKeepAlivePeriod (conn_fd k) 20;
                               EvServe sc].
Proof.
  intros Htcp Hb Hact Hthr.
  assert (HA : Accept (Some k, None) srv
               = Ret (Some k, None)
                     (log (log srv (EvSetKeepAlive (conn_fd k) true))
                          (EvSetKeepAlivePeriod (conn_fd k) 20))).
  { unfold Accept. rewrite Htcp. reflexivity. }
  split; [exact HA |].
  unfold Serve_iter.
  erewrite bind_Ret
    by (unfold waitThrottle; go_unfold; rewrite Hthr; reflexivity).
  erewrite bind_Ret by exact HA.
  cbv beta iota.
  unfold GoFunc, newConn. go_unfold. go_cbn. rewrite Hb. go_cbn. rewrite Hact.
  eexists. cbv zeta. split; [reflexivity |]. go_cbn.
  rewrite lookup_insert_eq, <- !app_assoc. repeat split.
Qed.

Lemma Accept_ignores_keepalive_errors_witness :
  let k := {| conn_fd := 5; isTCPConn := true;
              setKeepAlive_err := Some (ErrOther 1);
              setKeepAlivePeriod_err := None;
              close_err := None |} in
  Accept (Some k, None) example_server
  = Ret (Some k, None)
        (log (log example_server (EvSetKeepAlive 5 true))
             (EvSetKeepAlivePeriod 5 20)).
Proof.
  intros k.
  apply (proj1 (Accept_ignores_keepalive_errors example_server 0%nat 0 k
                  example_binding {[ 0%nat; 1%nat ]}
                  eq_refl eq_refl eq_refl eq_refl)).
Defined.

(** A socket that is not a [TCPConn] is what [Accept] refuses: it comes
    back with [ErrListenerAcceptReturnType] and the accept loop goes on
    without tracking it. *)
Remark Accept_not_TCPConn (srv : Server) (k : Conn) :
  isTCPConn k = false ->
  Accept (Some k, None) srv
  = Ret (Some k, Some ErrListenerAcceptReturnType) srv.
Proof. intros H. unfold Accept. now rewrite H. Qed.

(** * Further properties *)

(** ** readFrame: results, bounds and truncated input *)

(** The two ways [readFrame] ends. *)
Lemma readFrame_cases (dfr : defaultFrameReader) :
  (exists f : Frame, fst (readFrame dfr) = (Some f, None)) \/
  (exists err : Error, fst (readFrame dfr) = (None, Some err)).
Proof.
  unfold readFrame.
  destruct (ReadBytes (reader dfr) 16) as [[header | e] r1]; [| right; eauto].
  destruct (_ && _); [right; eauto |].
  destruct (_ <? 12); [right; eauto |].
  destruct (ReadBytes r1 _) as [[payload | e] r2]; [left | right]; eauto.
Qed.

(** X1. [readFrame] returns either a frame with a nil error or a nil frame
    with an error, never both and never neither. *)
Theorem readFrame_frame_xor_error (dfr : defaultFrameReader) :
  (exists f : Frame, fst (readFrame dfr) = (Some f, None)) \/
  (exists err : Error, fst (readFrame dfr) = (None, Some err)).
Proof.
  destruct (readFrame dfr) as [[fo eo] dfr1] eqn:E. cbn [fst].
  destruct eo as [err |].
  - right. exists err. apply readFrame_error_no_frame in E. now subst fo.
  - left. destruct (readFrame_cases dfr) as [[f Hf] | [err He]];
      rewrite E in *; cbn [fst] in *; [eauto | discriminate].
Qed.

Lemma ReadBytes_length (r r' : Reader) (n : nat) (bs : list byte) :
  ReadBytes r n = (inl bs, r') -> length bs = n.
Proof.
  unfold ReadBytes.
  destruct (Nat.leb_spec n (length (wire r))); intros [= <- <-].
  rewrite length_firstn. lia.
Qed.

(** X2. The fields of a frame that [readFrame] returns are in range: the
    request id is below 2^64, the cmd below 2^24 (the flags byte never
    leaks into it), the flags below 2^8, and the payload is shorter than
    2^32 - 12 bytes. *)
Theorem readFrame_field_ranges (dfr dfr' : defaultFrameReader) (f : Frame) :
  readFrame dfr = ((Some f, None), dfr') ->
  0 <= RequestID f < 2 ^ 64 /\
  0 <= Cmd f < 2 ^ 24 /\
  0 <= Flags f < 2 ^ 8 /\
  Z.of_nat (length (Payload f)) < 2 ^ 32 - 12.
Proof.
  unfold readFrame.
  destruct (ReadBytes (reader dfr) 16) as [[header | e] r1]; [| intros [=]].
  destruct (_ && _); [intros [=] |].
  destruct (Z.ltb_spec (Uint32 header) 12) as [| Hge]; [intros [=] |].
  destruct (ReadBytes r1 _) as [[payload | e] r2] eqn:E2; intros [=]. subst.
  cbn [RequestID Cmd Flags Payload].
  pose proof (Uint32_range header) as Hsz.
  split; [| split; [| split]].
  - unfold Uint64.
    pose proof (be_uint_range (firstn 8 (skipn 4 header))) as Hr.
    assert (256 ^ Z.of_nat (length (firstn 8 (skipn 4 header))) <= 256 ^ 8)
      by (apply Z.pow_le_mono_r; [lia | rewrite length_firstn; lia]).
    change (2 ^ 64) with (256 ^ 8). lia.
  - change 0xffffff with (Z.ones 24). rewrite Z.land_ones by lia.
    pose proof (Z.mod_pos_bound (Uint32 (skipn 12 header)) (2 ^ 24)
                  ltac:(lia)) as Hm.
    unfold uint32. rewrite Z.mod_small; lia.
  - unfold uint8. apply Z.mod_pos_bound. lia.
  - apply ReadBytes_length in E2. rewrite E2.
    unfold uint32. rewrite Z.mod_small by lia. lia.
Qed.

Lemma readFrame_field_ranges_witness :
  let f := {| RequestID := 1; Cmd := 1; Flags := 0; Payload := [xab; xcd] |} in
  0 <= RequestID f < 2 ^ 64 /\ 0 <= Cmd f < 2 ^ 24 /\ 0 <= Flags f < 2 ^ 8 /\
  Z.of_nat (length (Payload f)) < 2 ^ 32 - 12.
Proof.
  intros f.
  apply (readFrame_field_ranges
           (newFrameReader [x00; x00; x00; x0e; x00; x00; x00; x00;
                            x00; x00; x00; x01; x00; x00; x00; x01;
                            xab; xcd; xff])
           (mkDFR (mkReader [xff]) 0) f).
  reflexivity.
Defined.

(** X3. Once the 16 header bytes are there, [readFrame] returns a frame
    exactly when the size passes the upper-bound test, is at least 12, and
    the [size - 12] payload bytes are on the wire. *)
Theorem readFrame_succeeds_iff (dfr : defaultFrameReader)
    (header tail : list byte) :
  length header = 16%nat ->
  wire (reader dfr) = header ++ tail ->
  (exists (f : Frame) (dfr' : defaultFrameReader),
      readFrame dfr = ((Some f, None), dfr'))
  <-> (~ (0 < maxFrameSize dfr /\ uint32 (maxFrameSize dfr) < Uint32 header)
       /\ 12 <= Uint32 header
       /\ Uint32 header - 12 <= Z.of_nat (length tail)).
Proof.
  intros Hlen Hwire.
  rewrite (readFrame_header dfr header tail Hlen Hwire). cbv zeta.
  pose proof (Uint32_range header) as Hsz.
  assert (Hn : 12 <= Uint32 header ->
               uint32 (Uint32 header - 12) = Uint32 header - 12)
    by (intros; unfold uint32; apply Z.mod_small; lia).
  unfold ReadBytes. cbn [wire]. split.
  - intros (f & d & Hr).
    destruct (_ && _) eqn:E1; [discriminate |].
    destruct (Z.ltb_spec (Uint32 header) 12) as [| Hge]; [discriminate |].
    rewrite (Hn Hge) in Hr.
    destruct (Nat.leb_spec (Z.to_nat (Uint32 header - 12)) (length tail));
      [| discriminate].
    apply andb_false_iff in E1. rewrite !Z.ltb_ge in E1. lia.
  - intros (Hlim & Hge & Hpay).
    assert (E1 : (0 <? maxFrameSize dfr)
                 && (uint32 (maxFrameSize dfr) <? Uint32 header) = false)
      by (apply andb_false_iff; rewrite !Z.ltb_ge; lia).
    rewrite E1.
    destruct (Z.ltb_spec (Uint32 header) 12); [lia |].
    rewrite (Hn Hge).
    destruct (Nat.leb_spec (Z.to_nat (Uint32 header - 12)) (length tail));
      [eauto | lia].
Qed.

Lemma readFrame_succeeds_iff_witness :
  exists (f : Frame) (dfr' : defaultFrameReader),
    readFrame (newFrameReader [x00; x00; x00; x0e; x00; x00; x00; x00;
                               x00; x00; x00; x01; x00; x00; x00; x01;
                               xab; xcd; xff])
    = ((Some f, None), dfr').
Proof.
  apply (proj2 (readFrame_succeeds_iff
                  (newFrameReader [x00; x00; x00; x0e; x00; x00; x00; x00;
                                   x00; x00; x00; x01; x00; x00; x00; x01;
                                   xab; xcd; xff])
                  [x00; x00; x00; x0e; x00; x00; x00; x00;
                   x00; x00; x00; x01; x00; x00; x00; x01]
                  [xab; xcd; xff] eq_refl eq_refl)).
  split; [intros [H _]; vm_compute in H; discriminate |].
  split; vm_compute; discriminate.
Defined.

(** X4. A connection that ends inside the header, an empty one included,
    makes [readFrame] return the I/O error of the short read with no
    frame and nothing left to read. *)
Theorem readFrame_short_header (dfr : defaultFrameReader) :
  (length (wire (reader dfr)) < 16)%nat ->
  readFrame dfr = ((None, Some ErrShortRead), set_reader dfr (mkReader [])).
Proof.
  intros Hlen. unfold readFrame, ReadBytes.
  destruct (Nat.leb_spec 16 (length (wire (reader dfr)))); [lia | reflexivity].
Qed.

Lemma readFrame_short_header_witness :
  readFrame (newFrameReader []) = ((None, Some ErrShortRead), newFrameReader []).
Proof.
  apply (readFrame_short_header (newFrameReader [])). cbn. lia.
Defined.

(** X5. A connection that ends inside the payload of a frame whose header
    was accepted makes [readFrame] return the I/O error of the short read,
    with no frame. *)
Theorem readFrame_short_payload (dfr : defaultFrameReader)
    (header tail : list byte) :
  length header = 16%nat ->
  wire (reader dfr) = header ++ tail ->
  ~ (0 < maxFrameSize dfr /\ uint32 (maxFrameSize dfr) < Uint32 header) ->
  12 <= Uint32 header ->
  Z.of_nat (length tail) < Uint32 header - 12 ->
  readFrame dfr = ((None, Some ErrShortRead), set_reader dfr (mkReader [])).
Proof.
  intros Hlen Hwire Hlim Hge Hpay.
  rewrite (readFrame_header dfr header tail Hlen Hwire). cbv zeta.
  pose proof (Uint32_range header) as Hsz.
  assert (E1 : (0 <? maxFrameSize dfr)
               && (uint32 (maxFrameSize dfr) <? Uint32 header) = false)
    by (apply andb_false_iff; rewrite !Z.ltb_ge; lia).
  rewrite E1.
  destruct (Z.ltb_spec (Uint32 header) 12); [lia |].
  assert (Hn : uint32 (Uint32 header - 12) = Uint32 header - 12)
    by (unfold uint32; apply Z.mod_small; lia).
  rewrite Hn. unfold ReadBytes. cbn [wire].
  destruct (Nat.leb_spec (Z.to_nat (Uint32 header - 12)) (length tail));
    [lia | reflexivity].
Qed.

Lemma readFrame_short_payload_witness :
  readFrame (newFrameReader [x00; x00; x00; x0e; x00; x00; x00; x00;
                             x00; x00; x00; x01; x00; x00; x00; x01; xab])
  = ((None, Some ErrShortRead), newFrameReader []).
Proof.
  apply (readFrame_short_payload
           (newFrameReader [x00; x00; x00; x0e; x00; x00; x00; x00;
                            x00; x00; x00; x01; x00; x00; x00; x01; xab])
           [x00; x00; x00; x0e; x00; x00; x00; x00;
            x00; x00; x00; x01; x00; x00; x00; x01] [xab]).
  - reflexivity.
  - reflexivity.
  - intros [H _]. vm_compute in H. discriminate.
  - vm_compute. discriminate.
  - vm_compute. reflexivity.
Defined.

(** X6. A reader whose [maxFrameSize] is zero or negative has no upper
    bound: it never answers [ErrFrameTooLarge].  The reader made by
    [newFrameReader] is one. *)
Theorem readFrame_no_limit (dfr : defaultFrameReader) :
  maxFrameSize dfr <= 0 ->
  snd (fst (readFrame dfr)) <> Some ErrFrameTooLarge.
Proof.
  intros Hm. unfold readFrame, ReadBytes.
  destruct (Nat.leb_spec 16 (length (wire (reader dfr)))); [| discriminate].
  destruct (Z.ltb_spec 0 (maxFrameSize dfr)); [lia |]. cbn [andb].
  destruct (_ <? 12); [discriminate |]. cbn [wire].
  destruct (_ <=? _)%nat; discriminate.
Qed.

(** A header that announces 2^32 - 1 bytes to a reader without a bound:
    the answer is the short read, not the size. *)
Lemma readFrame_no_limit_witness :
  snd (fst (readFrame (newFrameReader
                         [xff; xff; xff; xff; x00; x00; x00; x00;
                          x00; x00; x00; x01; x00; x00; x00; x01; xab])))
  <> Some ErrFrameTooLarge.
Proof.
  apply (readFrame_no_limit
           (newFrameReader [xff; xff; xff; xff; x00; x00; x00; x00;
                            x00; x00; x00; x01; x00; x00; x00; x01; xab])).
  cbn. lia.
Defined.

(** X7. The bound that is enforced is [maxFrameSize] cut to 32 bits: with
    [maxFrameSize > 0], a frame whose size exceeds
    [maxFrameSize mod 2^32] is refused with [ErrFrameTooLarge], also when
    its size is below [maxFrameSize]. *)
Theorem readFrame_limit_is_uint32 (dfr : defaultFrameReader)
    (header tail : list byte) :
  length header = 16%nat ->
  wire (reader dfr) = header ++ tail ->
  0 < maxFrameSize dfr ->
  maxFrameSize dfr mod 2 ^ 32 < Uint32 header ->
  readFrame dfr
  = ((None, Some ErrFrameTooLarge), set_reader dfr (mkReader tail)).
Proof.
  intros Hlen Hwire Hpos Hgt.
  rewrite (readFrame_header dfr header tail Hlen Hwire). cbv zeta.
  unfold uint32.
  destruct (Z.ltb_spec 0 (maxFrameSize dfr)); [| lia].
  destruct (Z.ltb_spec (maxFrameSize dfr mod 2 ^ 32) (Uint32 header)); [| lia].
  reflexivity.
Qed.

(** A frame of 14 bytes against a limit of 2^32 + 5 bytes. *)
Lemma readFrame_limit_is_uint32_witness :
  readFrame (newFrameReaderWithMFS
               [x00; x00; x00; x0e; x00; x00; x00; x00;
                x00; x00; x00; x01; x00; x00; x00; x01; xab; xcd]
               4294967301)
  = ((None, Some ErrFrameTooLarge),
     newFrameReaderWithMFS [xab; xcd] 4294967301).
Proof.
  apply (readFrame_limit_is_uint32
           (newFrameReaderWithMFS
              [x00; x00; x00; x0e; x00; x00; x00; x00;
               x00; x00; x00; x01; x00; x00; x00; x01; xab; xcd]
              4294967301)
           [x00; x00; x00; x0e; x00; x00; x00; x00;
            x00; x00; x00; x01; x00; x00; x00; x01] [xab; xcd]).
  - reflexivity.
  - reflexivity.
  - reflexivity.
  - reflexivity.
Defined.

(** What [readFrame] leaves to read is what came after the frame. *)
Lemma readFrame_suffix (dfr dfr1 : defaultFrameReader) (f : Frame) :
  readFrame dfr = ((Some f, None), dfr1) ->
  exists consumed : list byte,
    wire (reader dfr) = consumed ++ wire (reader dfr1) /\
    maxFrameSize dfr1 = maxFrameSize dfr.
Proof.
  unfold readFrame, ReadBytes.
  destruct (Nat.leb_spec 16 (length (wire (reader dfr)))); [| intros [=]].
  destruct (_ && _); [intros [=] |].
  destruct (_ <? 12); [intros [=] |]. cbn [wire].
  destruct (_ <=? _)%nat as [] eqn:E2; intros [=]. subst.
  cbn [set_reader reader wire maxFrameSize].
  match goal with
  | |- context [skipn ?n (skipn 16 ?w)] =>
      exists (firstn 16 w ++ firstn n (skipn 16 w))
  end.
  split; [| reflexivity].
  now rewrite <- app_assoc, !firstn_skipn.
Qed.

(** ** ReadFrame: how it ends *)

Section ReadFrameEnds.
Context {ConnStreams Stream : Type} `{!StreamOps ConnStreams Stream}.

(** X8. Whatever the stream table does, [ReadFrame] never panics and never
    dies, and when it returns it returns exactly one of a frame and an
    error. *)
Theorem ReadFrame_returns_frame_xor_error (fuel : nat) :
  forall (dfr : defaultFrameReader) (cs : ConnStreams),
    (forall msg st, ReadFrame fuel dfr cs <> Panic msg st) /\
    (forall msg st, ReadFrame fuel dfr cs <> Fatal msg st) /\
    (forall fo eo st,
        ReadFrame fuel dfr cs = Ret (fo, eo) st ->
        (exists f : Frame, fo = Some f /\ eo = None) \/
        (exists err : Error, fo = None /\ eo = Some err)).
Proof.
  induction fuel as [| fuel IH]; intros dfr cs;
    [repeat split; intros; discriminate |].
  cbn [ReadFrame].
  destruct (readFrame_cases dfr) as [[f Hf] | [e He]];
    destruct (readFrame dfr) as [[fo eo] dfr1]; cbn [fst] in *.
  - injection Hf as -> ->.
    destruct (IsRst (Flags f)); [apply IH |].
    destruct (CreateOrGetStream cs (RequestID f) (Flags f)) as [[s loaded] cs1].
    destruct (TryBind s f cs1) as [[|] cs2].
    + repeat split; try discriminate.
      intros fo eo st [= <- <- _]. left. eauto.
    + destruct (AddInFrame s f cs2) as [[|] cs3]; [apply IH |].
      destruct (DoneClosed s cs3); [apply IH |].
      repeat split; intros; discriminate.
  - injection He as -> ->.
    repeat split; try discriminate.
    intros fo eo st [= <- <- _]. right. eauto.
Qed.

(** An error of [readFrame] is returned by [ReadFrame] as it is, and the
    stream table is left as it was found. *)
Lemma ReadFrame_error_passthrough (fuel : nat) (dfr dfr1 : defaultFrameReader)
    (cs : ConnStreams) (err : Error) :
  fst (readFrame dfr) = (None, Some err) ->
  snd (readFrame dfr) = dfr1 ->
  ReadFrame (S fuel) dfr cs = Ret (None, Some err) (dfr1, cs).
Proof.
  intros Hr Hd. cbn [ReadFrame].
  destruct (readFrame dfr) as [[fo eo] d]. cbn [fst snd] in *.
  injection Hr as -> ->. now subst d.
Qed.

(** X9. A frame that [ReadFrame] returns is the frame [readFrame] decodes
    at some later position of the same connection: the bytes before it
    were consumed, the reader is left right behind it, and the bound of
    the reader is the same. *)
Theorem ReadFrame_frame_from_wire (fuel : nat) :
  forall (dfr dfr' : defaultFrameReader) (cs cs' : ConnStreams)
         (f : Frame) (eo : option Error),
    ReadFrame fuel dfr cs = Ret (Some f, eo) (dfr', cs') ->
    exists (dfr0 : defaultFrameReader) (skipped : list byte),
      wire (reader dfr) = skipped ++ wire (reader dfr0) /\
      maxFrameSize dfr0 = maxFrameSize dfr /\
      readFrame dfr0 = ((Some f, None), dfr').
Proof.
  induction fuel as [| fuel IH]; intros dfr dfr' cs cs' f eo; [intros [=] |].
  cbn [ReadFrame].
  destruct (readFrame dfr) as [[fo [e |]] dfr1] eqn:E.
  - apply readFrame_error_no_frame in E. subst fo. intros [=].
  - destruct fo as [f0 |]; [| intros [=]].
    assert (Hnext : forall cs1,
               ReadFrame fuel dfr1 cs1 = Ret (Some f, eo) (dfr', cs') ->
               exists dfr0 skipped,
                 wire (reader dfr) = skipped ++ wire (reader dfr0) /\
                 maxFrameSize dfr0 = maxFrameSize dfr /\
                 readFrame dfr0 = ((Some f, None), dfr')).
    { intros cs1 H1. destruct (IH _ _ _ _ _ _ H1) as (dfr0 & sk & Hw & Hm & Hr).
      destruct (readFrame_suffix _ _ _ E) as (sk0 & Hw0 & Hm0).
      exists dfr0, (sk0 ++ sk). rewrite Hw0, Hw, app_assoc.
      repeat split; [congruence | assumption]. }
    destruct (IsRst (Flags f0)); [apply Hnext |].
    destruct (CreateOrGetStream cs (RequestID f0) (Flags f0)) as [[s loaded] cs1].
    destruct (TryBind s f0 cs1) as [[|] cs2].
    + intros [= <- _ <- _]. exists dfr, []. repeat split. exact E.
    + destruct (AddInFrame s f0 cs2) as [[|] cs3]; [apply Hnext |].
      destruct (DoneClosed s cs3); [apply Hnext | intros [=]].
Qed.
End ReadFrameEnds.

(** The frame of request 8 behind a reset of stream 7. *)
Lemma ReadFrame_returns_frame_xor_error_witness :
  let f8 := {| RequestID := 8; Cmd := 1; Flags := 0; Payload := [xaa] |} in
  (exists f : Frame, Some f8 = Some f /\ @None Error = None) \/
  (exists err : Error, Some f8 = None /\ None = Some err).
Proof.
  intros f8.
  set (cs0 := ({[ 7 := mkStream Open true [] false ]} : gmap Z stream)).
  apply (proj2 (proj2 (ReadFrame_returns_frame_xor_error 3
                         (newFrameReader
                            [x00; x00; x00; x0c; x00; x00; x00; x00;
                             x00; x00; x00; x07; x04; x00; x00; x00;
                             x00; x00; x00; x0d; x00; x00; x00; x00;
                             x00; x00; x00; x08; x00; x00; x00; x01; xaa])
                         cs0))
           (Some f8) None
           (newFrameReader [],
            <[8 := mkStream Open true [] false]> (ResetByPeer 7 cs0))).
  vm_compute. reflexivity.
Defined.

(** The reset of stream 7 is skipped and the frame of request 8, which
    follows it, is returned. *)
Lemma ReadFrame_frame_from_wire_witness :
  let f8 := {| RequestID := 8; Cmd := 1; Flags := 0; Payload := [xaa] |} in
  let wire1 := [x00; x00; x00; x0d; x00; x00; x00; x00;
                x00; x00; x00; x08; x00; x00; x00; x01; xaa] in
  let rst := [x00; x00; x00; x0c; x00; x00; x00; x00;
              x00; x00; x00; x07; x04; x00; x00; x00] in
  let cs0 : gmap Z stream := {[ 7 := mkStream Open true [] false ]} in
  exists (dfr0 : defaultFrameReader) (skipped : list byte),
    rst ++ wire1 = skipped ++ wire (reader dfr0) /\
    maxFrameSize dfr0 = 0 /\
    readFrame dfr0 = ((Some f8, None), newFrameReader []).
Proof.
  intros f8 wire1 rst cs0.
  apply (ReadFrame_frame_from_wire 3 (newFrameReader (rst ++ wire1))
           (newFrameReader []) cs0
           (<[8 := mkStream Open true [] false]> (ResetByPeer 7 cs0))
           f8 None).
  vm_compute. reflexivity.
Defined.

(** ** ServeMux: registrations and dispatch *)

(** A registration that panics leaves the mux as it was: the deferred
    [Unlock] has released the lock and the handler table is untouched. *)
Remark Handle_panic_leaves_mux (cmd : Z) (handler : option Handler)
    (middleware : list MiddlewareFunc) (mux mux' : ServeMux.t) (msg : string) :
  rw_free (ServeMux.mu mux) = true ->
  ServeMux.Handle cmd handler middleware mux = Panic msg mux' ->
  mux' = mux.
Proof.
  intros Hfree. rewrite (Handle_free _ _ _ _ Hfree).
  destruct handler as [h |]; [| now intros [= _ <-]].
  destruct (ServeMux.lookup mux cmd); [now intros [= _ <-] | intros [=]].
Qed.

(** X10. Handlers for two different cmds can be registered in either
    order: the mux that results is the same. *)
Theorem Handle_commute (c1 c2 : Z) (h1 h2 : option Handler)
    (mw1 mw2 : list MiddlewareFunc) (mux mux1 mux12 : ServeMux.t) :
  c1 <> c2 ->
  rw_free (ServeMux.mu mux) = true ->
  ServeMux.Handle c1 h1 mw1 mux = Ret tt mux1 ->
  ServeMux.Handle c2 h2 mw2 mux1 = Ret tt mux12 ->
  exists mux2,
    ServeMux.Handle c2 h2 mw2 mux = Ret tt mux2 /\
    ServeMux.Handle c1 h1 mw1 mux2 = Ret tt mux12.
Proof.
  intros Hne Hfree H1 H2.
  rewrite (Handle_free _ _ _ _ Hfree) in H1.
  destruct h1 as [h1 |]; [| discriminate].
  destruct (ServeMux.lookup mux c1) eqn:L1; [discriminate |].
  injection H1 as <-.
  assert (Hfree1 : forall tbl, rw_free (ServeMux.mu (ServeMux.set_m mux tbl)) = true)
    by (intros; exact Hfree).
  rewrite (Handle_free _ _ _ _ (Hfree1 _)) in H2.
  destruct h2 as [h2 |]; [| discriminate].
  unfold ServeMux.lookup in H2, L1 |- *. cbn [ServeMux.set_m ServeMux.m] in H2.
  rewrite lookup_insert_ne in H2 by assumption.
  rewrite (Handle_free _ _ _ _ Hfree). unfold ServeMux.lookup.
  destruct (ServeMux.m mux) as [tbl |] eqn:Em.
  - destruct (tbl !! c2) eqn:L2; [discriminate |].
    injection H2 as <-. eexists. split; [reflexivity |].
    rewrite (Handle_free _ _ _ _ (Hfree1 _)). unfold ServeMux.lookup.
    cbn [ServeMux.set_m ServeMux.m ServeMux.mu ServeMux.events].
    rewrite lookup_insert_ne, L1 by congruence.
    now rewrite insert_insert_ne by assumption.
  - rewrite lookup_empty in H2.
    injection H2 as <-. eexists. split; [reflexivity |].
    rewrite (Handle_free _ _ _ _ (Hfree1 _)). unfold ServeMux.lookup.
    cbn [ServeMux.set_m ServeMux.m ServeMux.mu ServeMux.events].
    rewrite lookup_insert_ne, lookup_empty by congruence.
    now rewrite insert_insert_ne by assumption.
Qed.

Lemma Handle_commute_witness :
  exists mux2,
    ServeMux.Handle 2 (Some (HandlerFunc 6)) [] ServeMux.NewServeMux
    = Ret tt mux2 /\
    ServeMux.Handle 1 (Some (HandlerFunc 5)) [] mux2
    = Ret tt (ServeMux.set_m ServeMux.NewServeMux
                (Some {[ 1 := HandlerWithMW (HandlerFunc 5) [];
                         2 := HandlerWithMW (HandlerFunc 6) [] ]})).
Proof.
  apply (Handle_commute 1 2 (Some (HandlerFunc 5)) (Some (HandlerFunc 6)) [] []
           ServeMux.NewServeMux
           (ServeMux.set_m ServeMux.NewServeMux
              (Some {[ 1 := HandlerWithMW (HandlerFunc 5) [] ]}))).
  - discriminate.
  - reflexivity.
  - reflexivity.
  - vm_compute. reflexivity.
Defined.

(** X11. A request whose cmd has a handler is handed to that handler, once,
    after the read lock has been given back: apart from the call the mux,
    its lock included, is as before. *)
Theorem ServeQRPC_registered (w : FrameWriter) (r : RequestFrame)
    (mux : ServeMux.t) (h : Handler) :
  writer (ServeMux.mu mux) = false ->
  ServeMux.lookup mux (rf_Cmd r) = Some h ->
  ServeMux.ServeQRPC w r mux
  = Ret tt (ServeMux.emit mux (EvServeQRPC h w r)).
Proof.
  intros Hw Hh. unfold ServeMux.ServeQRPC, rw_RLock. rewrite Hw.
  change (ServeMux.lookup (ServeMux.set_mu mux _) (rf_Cmd r))
    with (ServeMux.lookup mux (rf_Cmd r)).
  rewrite Hh.
  destruct mux as [[wr n] tbl ev]. cbn in Hw. subst wr. reflexivity.
Qed.

Lemma ServeQRPC_registered_witness :
  let mux1 := ServeMux.set_m ServeMux.NewServeMux
                (Some {[ 5 := HandlerWithMW (HandlerFunc 1) [] ]}) in
  let r := mkRequestFrame 1 5 in
  ServeMux.ServeQRPC 9%nat r mux1
  = Ret tt (ServeMux.emit mux1
              (EvServeQRPC (HandlerWithMW (HandlerFunc 1) []) 9%nat r)).
Proof.
  intros mux1 r.
  apply (ServeQRPC_registered 9%nat r mux1 (HandlerWithMW (HandlerFunc 1) [])
           eq_refl eq_refl).
Defined.

(** X12. A request whose cmd has no handler leaves the read lock held:
    the return on that path comes before [RUnlock].  Each such request
    adds one reader that never leaves, and from then on every [Handle],
    which needs the write lock, waits for ever. *)
Theorem ServeQRPC_unregistered_holds_RLock (w : FrameWriter) (r : RequestFrame)
    (mux : ServeMux.t) :
  writer (ServeMux.mu mux) = false ->
  ServeMux.lookup mux (rf_Cmd r) = None ->
  exists mux',
    ServeMux.ServeQRPC w r mux = Ret tt mux' /\
    ServeMux.mu mux' = mkRW false (S (readers (ServeMux.mu mux))) /\
    (forall (cmd : Z) (handler : option Handler)
            (middleware : list MiddlewareFunc),
        ServeMux.Handle cmd handler middleware mux' = Parked mux').
Proof.
  intros Hw Hnone. unfold ServeMux.ServeQRPC, rw_RLock. rewrite Hw.
  change (ServeMux.lookup (ServeMux.set_mu mux _) (rf_Cmd r))
    with (ServeMux.lookup mux (rf_Cmd r)).
  rewrite Hnone. eexists. split; [reflexivity |].
  split; [reflexivity |].
  intros cmd handler middleware. apply Handle_waits_for_lock. reflexivity.
Qed.

Lemma ServeQRPC_unregistered_holds_RLock_witness :
  exists mux',
    ServeMux.ServeQRPC 9%nat (mkRequestFrame 1 5) ServeMux.NewServeMux
    = Ret tt mux' /\
    ServeMux.mu mux' = mkRW false 1 /\
    ServeMux.Handle 5 (Some (HandlerFunc 1)) [] mux' = Parked mux'.
Proof.
  destruct (ServeQRPC_unregistered_holds_RLock 9%nat (mkRequestFrame 1 5)
              ServeMux.NewServeMux eq_refl eq_refl)
    as (mux' & H1 & H2 & H3).
  exists mux'. split; [exact H1 |]. split; [exact H2 | apply H3].
Defined.

(** ** The registry: connections come and go *)

Lemma newConn_run (srv : Server) (rw : option Conn) (i : nat)
    (b : ServerBinding) (act : gset connptr) :
  bindings srv !! i = Some b ->
  activeConn srv !! i = Some act ->
  newConn rw i srv
  = Ret (fresh (dom (heap srv)))
        (set_activeConn
           (set_heap srv
              (<[fresh (dom (heap srv)) :=
                   {| rwc := rw; idx := i; id := ""; untrack_flag := 0;
                      untrackedCh_closed := false;
                      readFrameCh_cap := if 0 <? ReadFrameChSize b
                                         then ReadFrameChSize b else 0;
                      closed := false |}]> (heap srv)))
           (<[i := {[fresh (dom (heap srv))]} ∪ act]> (activeConn srv))).
Proof.
  intros Hb Hact. unfold newConn. go_unfold. rewrite Hb. go_cbn.
  now rewrite Hact.
Qed.

Lemma fresh_not_allocated (srv : Server) :
  heap srv !! fresh (dom (heap srv)) = None.
Proof. apply not_elem_of_dom. apply is_fresh. Qed.



(** [newConn] on a binding index that the server does not have is a
    run-time panic, and the server is left as it was: no connection is
    allocated or tracked. *)
Remark newConn_out_of_range (srv : Server) (rw : option Conn) (i : nat) :
  (length (bindings srv) <= i)%nat ->
  newConn rw i srv = Panic "index out of range" srv.
Proof.
  intros Hlen. unfold newConn. go_unfold.
  now rewrite (lookup_ge_None_2 _ _ Hlen).
Qed.

(** ** The invariant of the registry *)

Lemma lookup_repeat_Some {A} (x y : A) (n i : nat) :
  repeat x n !! i = Some y -> y = x.
Proof.
  revert i. induction n as [| n IH]; intros [| i]; cbn; try discriminate.
  - congruence.
  - apply IH.
Qed.

(** X14. A new server has a well-formed registry. *)
Theorem NewServer_registry_wf (bs : list ServerBinding) :
  registry_wf (NewServer bs).
Proof.
  unfold registry_wf, NewServer. cbn.
  rewrite !repeat_length. repeat split.
  - intros i tbl id vsc Hi Hid.
    apply lookup_repeat_Some in Hi as ->. now rewrite lookup_empty in Hid.
  - intros i act sc Hi Hsc.
    apply lookup_repeat_Some in Hi as ->. now apply not_elem_of_empty in Hsc.
  - rewrite lookup_empty in H. discriminate.
  - rewrite lookup_empty in H. discriminate.
  - rewrite lookup_empty in H. discriminate.
Qed.

(** The invariant looks at four fields only. *)
Lemma registry_wf_ext (srv srv' : Server) :
  bindings srv' = bindings srv ->
  id2Conn srv' = id2Conn srv ->
  activeConn srv' = activeConn srv ->
  heap srv' = heap srv ->
  registry_wf srv -> registry_wf srv'.
Proof.
  unfold registry_wf. intros -> -> -> ->. trivial.
Qed.

Lemma live_channel_open (srv : Server) (sc : connptr) (c : serveconn) :
  registry_wf srv ->
  heap srv !! sc = Some c ->
  untrack_flag c = 0 ->
  untrackedCh_closed c = false.
Proof.
  intros (_ & _ & _ & _ & H5) Hsc Hflag.
  destruct (H5 sc c Hsc) as [_ Hiff].
  destruct (untrackedCh_closed c); [| reflexivity].
  exfalso. now apply Hiff.
Qed.

(** The registry after a connection has been untracked. *)
Lemma registry_wf_untracked (srv srv1 : Server) (sc : connptr)
    (c c1 : serveconn) (tbl : gmap string connptr) (act : gset connptr) :
  registry_wf srv ->
  heap srv !! sc = Some c ->
  id2Conn srv !! idx c = Some tbl ->
  activeConn srv !! idx c = Some act ->
  bindings srv1 = bindings srv ->
  heap srv1 = <[sc := c1]> (heap srv) ->
  idx c1 = idx c ->
  untrack_flag c1 <> 0 ->
  untrackedCh_closed c1 = true ->
  id2Conn srv1 = (if bool_decide (id c = "") then id2Conn srv
                  else <[idx c := delete (id c) tbl]> (id2Conn srv)) ->
  activeConn srv1 = <[idx c := act ∖ {[sc]}]> (activeConn srv) ->
  registry_wf srv1.
Proof.
  intros (L1 & L2 & W3 & W4 & W5) Hsc Htbl Hact Hb Hheap Hidx Hflag Hch Hid2 Hac.
  unfold registry_wf. rewrite Hb, Hheap, Hac.
  assert (Hold : forall i tbl' id' vsc,
             id2Conn srv1 !! i = Some tbl' -> tbl' !! id' = Some vsc ->
             exists tbl0, id2Conn srv !! i = Some tbl0 /\ tbl0 !! id' = Some vsc
                          /\ (i = idx c -> id' <> id c \/ id c = "")).
  { intros i tbl' id' vsc Hi Hid'. rewrite Hid2 in Hi.
    destruct (bool_decide (id c = "")) eqn:E.
    - apply bool_decide_eq_true in E. eauto.
    - destruct (decide (i = idx c)) as [-> | Hne].
      + rewrite list_lookup_insert_eq in Hi by (eapply lookup_lt_Some; eauto).
        injection Hi as <-. apply lookup_delete_Some in Hid' as [Hk Hid'].
        exists tbl. split; [assumption |]. split; [assumption |]. left. congruence.
      + rewrite list_lookup_insert_ne in Hi by congruence.
        exists tbl'. split; [assumption |]. split; [assumption |]. congruence. }
  split; [| split; [| split; [| split]]].
  - rewrite Hid2. destruct (bool_decide _); [| rewrite length_insert]; exact L1.
  - rewrite length_insert. exact L2.
  - intros i tbl' id' vsc Hi Hid'.
    destruct (Hold i tbl' id' vsc Hi Hid') as (tbl0 & Hi0 & Hid0 & Hkey).
    destruct (W3 i tbl0 id' vsc Hi0 Hid0) as (vc & Hvc & Hvi & Hvid & Hne & Hvf).
    exists vc. rewrite lookup_insert_ne; [now repeat split |].
    intros ->. rewrite Hsc in Hvc. injection Hvc as <-.
    unfold GetID in Hvid. destruct (Hkey (eq_sym Hvi)); congruence.
  - intros i act' p Hi Hp.
    destruct (decide (i = idx c)) as [-> | Hne].
    + rewrite list_lookup_insert_eq in Hi by (eapply lookup_lt_Some; eauto).
      injection Hi as <-. apply elem_of_difference in Hp as [Hp Hps].
      destruct (W4 _ _ _ Hact Hp) as (x & Hx & Hxi & Hxf).
      exists x. rewrite lookup_insert_ne by (intros ->; now apply Hps, elem_of_singleton).
      now repeat split.
    + rewrite list_lookup_insert_ne in Hi by congruence.
      destruct (W4 _ _ _ Hi Hp) as (x & Hx & Hxi & Hxf).
      exists x. rewrite lookup_insert_ne; [now repeat split |].
      intros ->. congruence.
  - intros p x Hp. destruct (decide (p = sc)) as [-> | Hne].
    + rewrite lookup_insert_eq in Hp. injection Hp as <-.
      rewrite Hidx. split; [apply (W5 sc c Hsc) |]. tauto.
    + rewrite lookup_insert_ne in Hp by congruence. apply (W5 p x Hp).
Qed.

(** The registry after an id has been given to a live connection. *)
Lemma registry_wf_bound (srv srv1 : Server) (sc : connptr) (c : serveconn)
    (id : string) (tbl : gmap string connptr) :
  registry_wf srv ->
  heap srv !! sc = Some c ->
  GetID c = id ->
  id <> "" ->
  untrack_flag c = 0 ->
  id2Conn srv !! idx c = Some tbl ->
  bindings srv1 = bindings srv ->
  heap srv1 = heap srv ->
  activeConn srv1 = activeConn srv ->
  id2Conn srv1 = <[idx c := <[id := sc]> tbl]> (id2Conn srv) ->
  registry_wf srv1.
Proof.
  intros (L1 & L2 & W3 & W4 & W5) Hsc Hcid Hne Hflag Htbl Hb Hheap Hac Hid2.
  unfold registry_wf. rewrite Hb, Hheap, Hac, Hid2.
  split; [now rewrite length_insert |].
  split; [assumption |]. split; [| split; assumption].
  intros i tbl' id' vsc Hi Hid'.
  destruct (decide (i = idx c)) as [-> | Hni].
  - rewrite list_lookup_insert_eq in Hi by (eapply lookup_lt_Some; eauto).
    injection Hi as <-.
    apply lookup_insert_Some in Hid' as [[<- <-] | [Hk Hid']].
    + exists c. now repeat split.
    + apply (W3 _ _ _ _ Htbl Hid').
  - rewrite list_lookup_insert_ne in Hi by congruence.
    apply (W3 _ _ _ _ Hi Hid').
Qed.

(** X15. On a well-formed registry [newConn] for a binding the server has
    always returns, and the registry is well formed afterwards. *)
Theorem newConn_keeps_registry (srv : Server) (rw : option Conn) (i : nat) :
  registry_wf srv ->
  (i < length (bindings srv))%nat ->
  exists (sc : connptr) (srv' : Server),
    newConn rw i srv = Ret sc srv' /\
    registry_wf srv'.
Proof.
  intros Hwf Hi. pose proof Hwf as (L1 & L2 & W3 & W4 & W5).
  destruct (lookup_lt_is_Some_2 (bindings srv) i Hi) as [b Hb].
  destruct (lookup_lt_is_Some_2 (activeConn srv) i ltac:(lia)) as [act Hact].
  eexists _, _. split; [apply (newConn_run srv rw i b act Hb Hact) |].
  pose proof (fresh_not_allocated srv) as Hfresh.
  set (sc := fresh (dom (heap srv))) in *.
  unfold registry_wf. go_cbn.
  split; [assumption |]. split; [now rewrite length_insert |].
  split; [| split].
  - intros j tbl id vsc Hj Hid.
    destruct (W3 j tbl id vsc Hj Hid) as (vc & Hvc & Hrest).
    exists vc. rewrite lookup_insert_ne by congruence. now split.
  - intros j act' p Hj Hp.
    destruct (decide (j = i)) as [-> | Hne].
    + rewrite list_lookup_insert_eq in Hj by (eapply lookup_lt_Some; eauto).
      injection Hj as <-. apply elem_of_union in Hp as [Hp | Hp].
      * apply elem_of_singleton in Hp as ->.
        eexists. rewrite lookup_insert_eq. repeat split.
      * destruct (W4 _ _ _ Hact Hp) as (x & Hx & Hrest).
        exists x. rewrite lookup_insert_ne by congruence. now split.
    + rewrite list_lookup_insert_ne in Hj by congruence.
      destruct (W4 _ _ _ Hj Hp) as (x & Hx & Hrest).
      exists x. rewrite lookup_insert_ne by congruence. now split.
  - intros p x Hp. destruct (decide (p = sc)) as [-> | Hne].
    + rewrite lookup_insert_eq in Hp. injection Hp as <-. cbn.
      split; [assumption |]. split; [discriminate | intros H; now elim H].
    + rewrite lookup_insert_ne in Hp by congruence. apply (W5 p x Hp).
Qed.

Lemma example_server_wf : registry_wf example_server.
Proof.
  unfold registry_wf, example_server. cbn.
  split; [reflexivity |]. split; [reflexivity |]. split; [| split].
  - intros [| i] tbl id vsc Hi Hid; [| discriminate].
    injection Hi as <-. apply lookup_singleton_Some in Hid as [<- <-].
    exists (example_conn 3). repeat split. discriminate.
  - intros [| i] act p Hi Hp; [| discriminate].
    injection Hi as <-.
    apply elem_of_union in Hp as [Hp | Hp]; apply elem_of_singleton in Hp as ->.
    + exists (example_conn 3). repeat split.
    + exists (example_conn 4). repeat split.
  - intros p x Hp.
    apply lookup_insert_Some in Hp as [[<- <-] | [_ Hp]].
    + cbn. split; [lia |]. split; [discriminate | intros H; now elim H].
    + apply lookup_singleton_Some in Hp as [<- <-].
      cbn. split; [lia |]. split; [discriminate | intros H; now elim H].
Qed.

Lemma newConn_keeps_registry_witness :
  exists (sc : connptr) (srv' : Server),
    newConn None 0 example_server = Ret sc srv' /\ registry_wf srv'.
Proof.
  apply (newConn_keeps_registry example_server None 0 example_server_wf).
  cbn. lia.
Defined.

(** X16. On a well-formed registry [untrack] of a connection always
    returns, the registry is well formed afterwards, and the connection
    can no longer be reached: no id leads to it and it is in no
    [activeConn]. *)
Theorem untrack_keeps_registry (srv : Server) (sc : connptr) (kicked : bool)
    (c : serveconn) :
  registry_wf srv ->
  heap srv !! sc = Some c ->
  exists (ok : bool) (srv' : Server),
    untrack sc kicked srv = Ret (ok, sc) srv' /\
    registry_wf srv' /\
    (forall (i : nat) (id : string) (r : option ConnectionInfo) (s : Server),
        GetConnectionInfoByID i id srv' = Ret r s -> r <> Some sc) /\
    (forall (i : nat) (act : gset connptr),
        activeConn srv' !! i = Some act -> sc ∉ act).
Proof.
  intros Hwf Hsc.
  assert (Hgone : forall srv' c',
             registry_wf srv' -> heap srv' !! sc = Some c' ->
             untrack_flag c' <> 0 ->
             (forall i id r s,
                 GetConnectionInfoByID i id srv' = Ret r s -> r <> Some sc) /\
             (forall i act, activeConn srv' !! i = Some act -> sc ∉ act)).
  { intros srv' c' (_ & _ & W3 & W4 & _) Hc' Hf. split.
    - intros i id r s. unfold GetConnectionInfoByID. go_unfold.
      destruct (id2Conn srv' !! i) as [tbl |] eqn:Ei; [| discriminate].
      destruct (tbl !! id) as [p |] eqn:Ep; [| intros [= <- _]; discriminate].
      destruct (heap srv' !! p) eqn:Eh; [| discriminate].
      intros [= <- _] [= ->].
      destruct (W3 _ _ _ _ Ei Ep) as (vc & Hvc & _ & _ & _ & Hvf). congruence.
    - intros i act Hi Hin.
      destruct (W4 _ _ _ Hi Hin) as (x & Hx & _ & Hxf). congruence. }
  destruct (Z.eq_dec (untrack_flag c) 0) as [Hflag | Hflag].
  - pose proof Hwf as (L1 & L2 & W3 & W4 & W5).
    destruct (W5 sc c Hsc) as [Hlt _].
    destruct (lookup_lt_is_Some_2 (bindings srv) (idx c) Hlt) as [b Hb].
    destruct (lookup_lt_is_Some_2 (id2Conn srv) (idx c) ltac:(lia)) as [tbl Htbl].
    destruct (lookup_lt_is_Some_2 (activeConn srv) (idx c) ltac:(lia))
      as [act Hact].
    destruct (untrack_first srv sc kicked c tbl act b Hsc Hflag
                (live_channel_open srv sc c Hwf Hsc Hflag) Htbl Hact Hb)
      as (srv1 & Hrun & Hheap & Hid2 & Hac & _ & _ & Hbs & _).
    exists true, srv1. split; [exact Hrun |].
    assert (Hwf1 : registry_wf srv1).
    { apply (registry_wf_untracked srv srv1 sc c
               (set_untrackedCh_closed (set_untracked c 1) true) tbl act);
        try assumption; try reflexivity. cbn. discriminate. }
    split; [exact Hwf1 |].
    apply (Hgone srv1 (set_untrackedCh_closed (set_untracked c 1) true) Hwf1).
    + rewrite Hheap. apply lookup_insert_eq.
    + cbn. discriminate.
  - exists false, srv.
    split; [apply (untrack_again srv sc kicked c Hsc Hflag) |].
    split; [exact Hwf |]. apply (Hgone srv c Hwf Hsc Hflag).
Qed.

Lemma untrack_keeps_registry_witness :
  exists (ok : bool) (srv' : Server),
    untrack 0%nat true example_server = Ret (ok, 0%nat) srv' /\
    registry_wf srv' /\
    (forall r s, GetConnectionInfoByID 0 "u1" srv' = Ret r s -> r <> Some 0%nat).
Proof.
  destruct (untrack_keeps_registry example_server 0%nat true (example_conn 3)
              example_server_wf eq_refl)
    as (ok & srv' & Hrun & Hwf & Hgone & _).
  exists ok, srv'. split; [exact Hrun |]. split; [exact Hwf |].
  apply Hgone.
Defined.

(** One pass through [check] that kicks the holder, with the fields the
    invariant looks at. *)
Lemma bindID_check_kick_registry (n : nat) (srv : Server) (sc vsc : connptr)
    (id : string) (kick : bool) (tbl : gmap string connptr)
    (vc : serveconn) :
  registry_wf srv ->
  id2Conn srv !! idx vc = Some tbl ->
  tbl !! id = Some vsc ->
  vsc <> sc ->
  heap srv !! vsc = Some vc ->
  GetID vc = id ->
  id <> "" ->
  untrack_flag vc = 0 ->
  exists srv',
    bindID_check (S n) sc id (idx vc) kick srv
    = bindID_check n sc id (idx vc) true srv' /\
    registry_wf srv' /\
    id2Conn srv' !! idx vc = Some (delete id tbl) /\
    (forall p : connptr, p <> vsc -> heap srv' !! p = heap srv !! p) /\
    kickOrder srv' = uint64 (kickOrder srv + 1).
Proof.
  intros Hwf Htbl Hid Hne Hvsc Hvid Hnonempty Hflag.
  pose proof Hwf as (L1 & L2 & W3 & W4 & W5).
  destruct (W5 vsc vc Hvsc) as [Hlt _].
  destruct (lookup_lt_is_Some_2 (bindings srv) (idx vc) Hlt) as [b Hb].
  destruct (lookup_lt_is_Some_2 (activeConn srv) (idx vc) ltac:(lia))
    as [act Hact].
  pose proof (live_channel_open srv vsc vc Hwf Hvsc Hflag) as Hch.
  destruct (untrack_first srv vsc true vc tbl act b Hvsc Hflag Hch Htbl Hact Hb)
    as (srv1 & Hrun & Hheap & Hid2 & Hac & Htr & Hko & Hbs & _).
  assert (Hvsc1 : heap srv1 !! vsc
                  = Some (set_untrackedCh_closed (set_untracked vc 1) true))
    by (rewrite Hheap; apply lookup_insert_eq).
  pose proof (closeUntracked_run srv1 vsc _ Hvsc1) as Hclose.
  cbn [bindID_check].
  erewrite bind_Ret by (unfold index; rewrite Htbl; reflexivity).
  rewrite Hid, bool_decide_eq_false_2 by assumption.
  erewrite bind_Ret by exact Hrun.
  cbv beta iota. cbn [negb when].
  erewrite bind_Ret by reflexivity.
  erewrite bind_Ret by exact Hclose.
  erewrite bind_Ret by (unfold index; go_cbn; rewrite Hbs, Hb; reflexivity).
  go_cbn.
  destruct (CounterMetric b);
    (erewrite bind_Ret by reflexivity); (erewrite bind_Ret by reflexivity);
    (eexists; split; [reflexivity |]); go_cbn.
  all: split;
    [ apply (registry_wf_untracked srv _ vsc vc
               (set_closed (set_untrackedCh_closed (set_untracked vc 1) true)
                  true) tbl act Hwf Hvsc Htbl Hact);
      go_cbn; try assumption; try reflexivity;
      [ rewrite Hheap; apply insert_insert_eq | cbn; discriminate ]
    | ].
  all: unfold GetID in Hvid; rewrite Hvid in Hid2;
    rewrite bool_decide_eq_false_2 in Hid2 by assumption.
  all: split;
    [ rewrite Hid2; apply list_lookup_insert_eq;
      eapply lookup_lt_Some; exact Htbl | ].
  all: split;
    [ intros p Hp; rewrite Hheap, insert_insert_eq;
      now apply lookup_insert_ne
    | now rewrite Hko ].
Qed.

(** X17. On a well-formed registry, [bindID(sc, id)] for a connection that
    has not been untracked and whose id is [id], not empty, returns within
    two passes through [check]; the registry is well formed afterwards and
    [id] leads to [sc]. *)
Theorem bindID_keeps_registry (srv : Server) (sc : connptr) (id : string)
    (c : serveconn) (n : nat) :
  registry_wf srv ->
  heap srv !! sc = Some c ->
  GetID c = id ->
  id <> "" ->
  untrack_flag c = 0 ->
  exists (kick : bool) (ko : Z) (srv' : Server),
    bindID (S (S n)) sc id srv = Ret (kick, ko) srv' /\
    registry_wf srv' /\
    GetConnectionInfoByID (idx c) id srv' = Ret (Some sc) srv'.
Proof.
  intros Hwf Hsc Hcid Hne Hflag.
  pose proof Hwf as (L1 & L2 & W3 & W4 & W5).
  destruct (W5 sc c Hsc) as [Hlt _].
  destruct (lookup_lt_is_Some_2 (id2Conn srv) (idx c) ltac:(lia)) as [tbl Htbl].
  assert (Hderef : deref sc srv = Ret c srv) by (unfold deref; now rewrite Hsc).
  assert (Hget : forall srv' tbl',
             id2Conn srv' !! idx c = Some tbl' -> tbl' !! id = Some sc ->
             is_Some (heap srv' !! sc) ->
             GetConnectionInfoByID (idx c) id srv' = Ret (Some sc) srv').
  { intros srv' tbl' Ht Hi [x Hx]. unfold GetConnectionInfoByID. go_unfold.
    now rewrite Ht, Hi, Hx. }
  unfold bindID. erewrite bind_Ret by exact Hderef.
  destruct (tbl !! id) as [vsc |] eqn:Hid.
  - destruct (decide (vsc = sc)) as [-> | Hvne].
    + exists false, 0, srv. split.
      * cbn [bindID_check]. go_unfold. rewrite Htbl, Hid.
        now rewrite bool_decide_eq_true_2.
      * split; [exact Hwf | eapply Hget; eauto].
    + destruct (W3 _ _ _ _ Htbl Hid) as (vc & Hvc & Hvi & Hvid & _ & Hvf).
      assert (Htbl' : id2Conn srv !! idx vc = Some tbl)
        by (rewrite Hvi; exact Htbl).
      destruct (bindID_check_kick_registry (S n) srv sc vsc id false tbl vc
                  Hwf Htbl' Hid Hvne Hvc Hvid Hne Hvf)
        as (srv1 & Hstep & Hwf1 & Htbl1 & Hheap1 & Hko1).
      rewrite Hvi in Hstep, Htbl1.
      rewrite Hstep.
      rewrite (bindID_check_free n srv1 sc id (idx c) true (delete id tbl)
                 Htbl1 (lookup_delete_eq tbl id)).
      eexists _, _, _. split; [reflexivity |].
      assert (Hsc1 : heap srv1 !! sc = Some c)
        by (rewrite Hheap1 by congruence; exact Hsc).
      split.
      * apply (registry_wf_bound srv1 _ sc c id (delete id tbl) Hwf1 Hsc1
                 Hcid Hne Hflag Htbl1); reflexivity.
      * eapply Hget; go_cbn.
        -- apply list_lookup_insert_eq. eapply lookup_lt_Some. exact Htbl1.
        -- apply lookup_insert_eq.
        -- eauto.
  - rewrite (bindID_check_free (S n) srv sc id (idx c) false tbl Htbl Hid).
    eexists _, _, _. split; [reflexivity |]. split.
    + apply (registry_wf_bound srv _ sc c id tbl Hwf Hsc Hcid Hne Hflag Htbl);
        reflexivity.
    + eapply Hget; go_cbn.
      * apply list_lookup_insert_eq. eapply lookup_lt_Some. exact Htbl.
      * apply lookup_insert_eq.
      * eauto.
Qed.

Lemma bindID_keeps_registry_witness :
  exists (kick : bool) (ko : Z) (srv' : Server),
    bindID 2 1%nat "u1" example_server = Ret (kick, ko) srv' /\
    registry_wf srv' /\
    GetConnectionInfoByID 0 "u1" srv' = Ret (Some 1%nat) srv'.
Proof.
  apply (bindID_keeps_registry example_server 1%nat "u1" (example_conn 4) 0
           example_server_wf eq_refl eq_refl).
  - discriminate.
  - reflexivity.
Defined.

(** X18. On a well-formed registry, a connection made by [newConn] and
    then untracked leaves [activeConn] and [id2Conn] as they were before
    it came, and no callback is called. *)
Theorem newConn_untrack_roundtrip (srv : Server) (rw : option Conn) (i : nat) :
  registry_wf srv ->
  (i < length (bindings srv))%nat ->
  exists (sc : connptr) (srv1 srv2 : Server),
    newConn rw i srv = Ret sc srv1 /\
    untrack sc false srv1 = Ret (true, sc) srv2 /\
    activeConn srv2 = activeConn srv /\
    id2Conn srv2 = id2Conn srv /\
    trace srv2 = trace srv.
Proof.
  intros Hwf Hi. pose proof Hwf as (L1 & L2 & W3 & W4 & W5).
  destruct (lookup_lt_is_Some_2 (bindings srv) i Hi) as [b Hb].
  destruct (lookup_lt_is_Some_2 (activeConn srv) i ltac:(lia)) as [act Hact].
  destruct (lookup_lt_is_Some_2 (id2Conn srv) i ltac:(lia)) as [tbl Htbl].
  pose proof (newConn_run srv rw i b act Hb Hact) as Hnew.
  pose proof (fresh_not_allocated srv) as Hfresh.
  set (sc := fresh (dom (heap srv))) in *.
  match type of Hnew with _ = Ret _ ?s => set (srv1 := s) in * end.
  assert (Hlt : (i < length (activeConn srv))%nat) by lia.
  destruct (untrack_first srv1 sc false
              {| rwc := rw; idx := i; id := ""; untrack_flag := 0;
                 untrackedCh_closed := false;
                 readFrameCh_cap := if 0 <? ReadFrameChSize b
                                    then ReadFrameChSize b else 0;
                 closed := false |} tbl ({[sc]} ∪ act) b)
    as (srv2 & Hrun & _ & Hid2 & Hac & Htr & _);
    try reflexivity.
  - apply lookup_insert_eq.
  - exact Htbl.
  - unfold srv1. go_cbn. now apply list_lookup_insert_eq.
  - exact Hb.
  - exists sc, srv1, srv2. split; [exact Hnew |]. split; [exact Hrun |].
    cbn in Hid2, Hac, Htr. rewrite app_nil_r in Htr.
    split; [| split; assumption].
    rewrite Hac. unfold srv1. go_cbn. rewrite list_insert_insert_eq.
    apply list_insert_id. rewrite Hact. f_equal.
    assert (Hnotin : sc ∉ act).
    { intros Hin. destruct (W4 _ _ _ Hact Hin) as (x & Hx & _). congruence. }
    apply set_eq. intros x.
    rewrite elem_of_difference, elem_of_union, elem_of_singleton.
    split; [| intros [[-> | Hx] Hn]; [now elim Hn | exact Hx]].
    intros Hx. split; [now right | intros ->; contradiction].
Qed.

Lemma newConn_untrack_roundtrip_witness :
  exists (sc : connptr) (srv1 srv2 : Server),
    newConn None 0 example_server = Ret sc srv1 /\
    untrack sc false srv1 = Ret (true, sc) srv2 /\
    activeConn srv2 = activeConn example_server /\
    id2Conn srv2 = id2Conn example_server /\
    trace srv2 = trace example_server.
Proof.
  apply (newConn_untrack_roundtrip example_server None 0 example_server_wf).
  cbn. lia.
Defined.

(** ** Shutdown *)

(** The listeners still tracked after those of [ls] were closed. *)
Lemma remaining_listeners_nil (ls L : list NetListener) :
  (forall l, l ∈ L -> ln_id l ∈ ln_id <$> ls) ->
  fold_left (fun L ln => filter (fun l => ln_id l ≠ ln_id ln) L) ls L = [].
Proof.
  revert L. induction ls as [| a ls IH]; intros L HL; cbn.
  - destruct L as [| l L]; [reflexivity |].
    specialize (HL l ltac:(left)). now apply elem_of_nil in HL.
  - apply IH. intros l Hl. apply list_elem_of_filter in Hl as [Hne Hl].
    specialize (HL l Hl). rewrite fmap_cons in HL.
    apply elem_of_cons in HL as [Heq | HL]; [congruence | exact HL].
Qed.

Lemma closeListenersLocked_ok (ls : list NetListener) :
  forall srv : Server,
    Forall (fun ln => ln_close_err ln = None) ls ->
    closeListenersLocked ls srv
    = Ret None
        {| bindings := bindings srv; mu := mu srv;
           listeners :=
             fold_left (fun L ln => filter (fun l => ln_id l ≠ ln_id ln) L)
               ls (listeners srv);
           doneChan_closed := doneChan_closed srv;
           shutdownFunc := shutdownFunc srv; done := done srv;
           id2Conn := id2Conn srv; activeConn := activeConn srv;
           throttle := throttle srv; wg := wg srv; heap := heap srv;
           kickOrder := kickOrder srv;
           trace := trace srv ++ (EvListenerClose ∘ ln_id <$> ls) |}.
Proof.
  induction ls as [| ln ls IH]; intros srv Hok.
  - cbn. rewrite app_nil_r. now destruct srv.
  - apply Forall_cons in Hok as [Hln Hok].
    cbn [closeListenersLocked]. go_unfold. rewrite Hln.
    rewrite (IH _ Hok). go_cbn. cbn [fold_left fmap list_fmap compose].
    now rewrite <- app_assoc.
Qed.

(** The listeners of [pre] close, the next one fails. *)
Lemma closeListenersLocked_fails (pre : list NetListener) :
  forall (srv : Server) (ln : NetListener) (post : list NetListener)
         (err : Error),
    Forall (fun ln => ln_close_err ln = None) pre ->
    ln_close_err ln = Some err ->
    closeListenersLocked (pre ++ ln :: post) srv
    = Ret (Some err)
        {| bindings := bindings srv; mu := mu srv;
           listeners :=
             fold_left (fun L ln => filter (fun l => ln_id l ≠ ln_id ln) L)
               pre (listeners srv);
           doneChan_closed := doneChan_closed srv;
           shutdownFunc := shutdownFunc srv; done := done srv;
           id2Conn := id2Conn srv; activeConn := activeConn srv;
           throttle := throttle srv; wg := wg srv; heap := heap srv;
           kickOrder := kickOrder srv;
           trace := trace srv
                    ++ (EvListenerClose ∘ ln_id <$> pre ++ [ln]) |}.
Proof.
  induction pre as [| a pre IH]; intros srv ln post err Hok Hln.
  - cbn [app closeListenersLocked]. go_unfold. rewrite Hln.
    now destruct srv.
  - apply Forall_cons in Hok as [Ha Hok].
    cbn [app closeListenersLocked]. go_unfold. rewrite Ha.
    rewrite (IH _ ln post err Hok Hln). go_cbn.
    cbn [fold_left fmap list_fmap compose app].
    now rewrite <- app_assoc.
Qed.

Lemma call_all_run (fs : list nat) :
  forall srv : Server,
    call_all fs srv
    = Ret tt
        {| bindings := bindings srv; mu := mu srv; listeners := listeners srv;
           doneChan_closed := doneChan_closed srv;
           shutdownFunc := shutdownFunc srv; done := done srv;
           id2Conn := id2Conn srv; activeConn := activeConn srv;
           throttle := throttle srv; wg := wg srv; heap := heap srv;
           kickOrder := kickOrder srv;
           trace := trace srv ++ (EvCall <$> fs) |}.
Proof.
  induction fs as [| f fs IH]; intros srv.
  - cbn. rewrite app_nil_r. now destruct srv.
  - cbn [call_all]. go_unfold. rewrite IH. go_cbn.
    cbn [fmap list_fmap]. now rewrite <- app_assoc.
Qed.

(** [Shutdown] of a running server whose listeners all close. *)
Lemma Shutdown_run (srv : Server) :
  mu srv = false ->
  done srv = false ->
  doneChan_closed srv = false ->
  wg srv = 0%nat ->
  Forall (fun ln => ln_close_err ln = None) (listeners srv) ->
  Shutdown srv
  = Ret None
      {| bindings := bindings srv; mu := false; listeners := [];
         doneChan_closed := true;
         shutdownFunc := shutdownFunc srv; done := true;
         id2Conn := id2Conn srv; activeConn := activeConn srv;
         throttle := throttle srv; wg := 0%nat; heap := heap srv;
         kickOrder := kickOrder srv;
         trace := trace srv
                  ++ (EvListenerClose ∘ ln_id <$> listeners srv)
                  ++ (EvCall <$> shutdownFunc srv) |}.
Proof.
  intros Hmu Hdone Hch Hwg Hok.
  unfold Shutdown. go_unfold. rewrite Hmu. go_cbn. rewrite Hdone.
  rewrite (closeListenersLocked_ok (listeners srv) _ Hok). go_cbn.
  rewrite Hch. go_cbn. rewrite call_all_run. go_cbn. rewrite Hwg.
  rewrite remaining_listeners_nil, <- app_assoc by (intros l Hl; now apply list_elem_of_fmap_2).
  reflexivity.
Qed.

(** X19. [Shutdown] of a running server whose listeners all close and
    whose goroutines are all done: every tracked listener is closed and
    untracked, the server is marked done with its done channel closed, the
    callbacks are called in the order they were registered in, after the
    listeners were closed, and the call returns nil with the mutex free. *)
Theorem Shutdown_closes_and_calls (srv : Server) :
  mu srv = false ->
  done srv = false ->
  doneChan_closed srv = false ->
  wg srv = 0%nat ->
  Forall (fun ln => ln_close_err ln = None) (listeners srv) ->
  Shutdown srv
  = Ret None
      {| bindings := bindings srv; mu := false; listeners := [];
         doneChan_closed := true;
         shutdownFunc := shutdownFunc srv; done := true;
         id2Conn := id2Conn srv; activeConn := activeConn srv;
         throttle := throttle srv; wg := 0%nat; heap := heap srv;
         kickOrder := kickOrder srv;
         trace := trace srv
                  ++ (EvListenerClose ∘ ln_id <$> listeners srv)
                  ++ (EvCall <$> shutdownFunc srv) |}.
Proof.
  intros Hmu Hdone Hch Hwg Hok.
  rewrite (Shutdown_run srv Hmu Hdone Hch Hwg Hok). reflexivity.
Qed.

(** X20. [Shutdown] of a server that is already shut down, with no
    goroutine outstanding, returns nil and changes nothing: no listener
    is closed again and no callback is called again. *)
Theorem Shutdown_again (srv : Server) :
  mu srv = false ->
  done srv = true ->
  wg srv = 0%nat ->
  Shutdown srv = Ret None srv.
Proof.
  intros Hmu Hdone Hwg. unfold Shutdown. go_unfold. rewrite Hmu. go_cbn.
  rewrite Hdone. go_cbn. rewrite Hwg.
  destruct srv. cbn in *. now subst.
Qed.

(** X21. When closing a listener fails, [Shutdown] returns that error with
    the mutex free: the server is not marked done, its done channel stays
    open and no callback is called; the listeners closed before the
    failing one are untracked, the failing one and the rest stay. *)
Theorem Shutdown_listener_error (srv : Server) (pre post : list NetListener)
    (ln : NetListener) (err : Error) :
  mu srv = false ->
  done srv = false ->
  listeners srv = pre ++ ln :: post ->
  Forall (fun ln => ln_close_err ln = None) pre ->
  ln_close_err ln = Some err ->
  Shutdown srv
  = Ret (Some err)
      {| bindings := bindings srv; mu := false;
         listeners :=
           fold_left (fun L ln => filter (fun l => ln_id l ≠ ln_id ln) L)
             pre (listeners srv);
         doneChan_closed := doneChan_closed srv;
         shutdownFunc := shutdownFunc srv; done := false;
         id2Conn := id2Conn srv; activeConn := activeConn srv;
         throttle := throttle srv; wg := wg srv; heap := heap srv;
         kickOrder := kickOrder srv;
         trace := trace srv ++ (EvListenerClose ∘ ln_id <$> pre ++ [ln]) |}.
Proof.
  intros Hmu Hdone Hls Hok Hln.
  unfold Shutdown. go_unfold. rewrite Hmu. go_cbn. rewrite Hdone. go_cbn.
  rewrite Hls.
  rewrite (closeListenersLocked_fails pre _ ln post err Hok Hln). go_cbn.
  now rewrite Hdone, Hls.
Qed.

Lemma Shutdown_closes_and_calls_witness :
  let srv := set_listeners
               (set_shutdownFunc (NewServer [example_binding]) [1%nat; 2%nat])
               [mkListener 7 None; mkListener 8 None] in
  exists srv',
    Shutdown srv = Ret None srv' /\
    listeners srv' = [] /\ done srv' = true /\ doneChan_closed srv' = true /\
    trace srv' = [EvListenerClose 7; EvListenerClose 8;
                  EvCall 1%nat; EvCall 2%nat].
Proof.
  intros srv. eexists. split.
  - apply (Shutdown_closes_and_calls srv eq_refl eq_refl eq_refl eq_refl).
    repeat constructor.
  - repeat split.
Defined.

Lemma Shutdown_again_witness :
  let srv := set_doneChan_closed (set_done (NewServer [example_binding]) true)
               true in
  Shutdown srv = Ret None srv.
Proof.
  intros srv. apply (Shutdown_again srv eq_refl eq_refl eq_refl).
Defined.

Lemma Shutdown_listener_error_witness :
  let srv := set_listeners
               (set_shutdownFunc (NewServer [example_binding]) [1%nat])
               [mkListener 7 None; mkListener 8 (Some (ErrOther 3));
                mkListener 9 None] in
  exists srv',
    Shutdown srv = Ret (Some (ErrOther 3)) srv' /\
    listeners srv' = [mkListener 8 (Some (ErrOther 3)); mkListener 9 None] /\
    done srv' = false /\ doneChan_closed srv' = false /\ mu srv' = false /\
    trace srv' = [EvListenerClose 7; EvListenerClose 8].
Proof.
  intros srv. eexists. split.
  - apply (Shutdown_listener_error srv [mkListener 7 None] [mkListener 9 None]
             (mkListener 8 (Some (ErrOther 3))) (ErrOther 3)
             eq_refl eq_refl eq_refl).
    + repeat constructor.
    + reflexivity.
  - repeat split.
Defined.

(** X22. A callback registered with [OnShutdown] before the shutdown is
    kept behind the callbacks registered earlier, and [Shutdown] calls it
    once, after them. *)
Theorem OnShutdown_then_Shutdown (srv : Server) (f : nat) :
  mu srv = false ->
  done srv = false ->
  doneChan_closed srv = false ->
  wg srv = 0%nat ->
  Forall (fun ln => ln_close_err ln = None) (listeners srv) ->
  (OnShutdown f;; Shutdown) srv
  = Ret None
      {| bindings := bindings srv; mu := false; listeners := [];
         doneChan_closed := true;
         shutdownFunc := shutdownFunc srv ++ [f]; done := true;
         id2Conn := id2Conn srv; activeConn := activeConn srv;
         throttle := throttle srv; wg := 0%nat; heap := heap srv;
         kickOrder := kickOrder srv;
         trace := trace srv
                  ++ (EvListenerClose ∘ ln_id <$> listeners srv)
                  ++ (EvCall <$> shutdownFunc srv) ++ [EvCall f] |}.
Proof.
  intros Hmu Hdone Hch Hwg Hok.
  erewrite bind_Ret by (apply OnShutdown_before_Shutdown; assumption).
  rewrite Shutdown_run;
    [| reflexivity | exact Hdone | exact Hch | exact Hwg | exact Hok].
  go_cbn. now rewrite fmap_app.
Qed.

Lemma OnShutdown_then_Shutdown_witness :
  let srv := set_listeners
               (set_shutdownFunc (NewServer [example_binding]) [1%nat])
               [mkListener 7 None] in
  exists srv',
    (OnShutdown 2%nat;; Shutdown) srv = Ret None srv' /\
    trace srv' = [EvListenerClose 7; EvCall 1%nat; EvCall 2%nat].
Proof.
  intros srv. eexists. split.
  - apply (OnShutdown_then_Shutdown srv 2%nat eq_refl eq_refl eq_refl eq_refl).
    repeat constructor.
  - reflexivity.
Defined.

(** ** trackListener *)




(** ** Throttle *)

(** X24. [SetThrottle] suspends the accept loop of its binding: while the
    server is not shut down every pass of the loop waits at the gate,
    without accepting anything.  Setting the throttle again changes
    nothing. *)
Theorem SetThrottle_suspends_accepts (srv : Server) (i : nat)
    (v : option throttle_t) :
  throttle srv !! i = Some v ->
  (forall t, v = Some t -> ch_closed t = false) ->
  exists srv',
    SetThrottle i srv = Ret tt srv' /\
    (doneChan_closed srv = false ->
     forall (tempDelay : Z) (inner : option Conn * option Error),
       Serve_iter i tempDelay inner srv' = Parked srv') /\
    SetThrottle i srv' = Ret tt srv'.
Proof.
  intros Hv Hopen.
  assert (Hlt : (i < length (throttle srv))%nat) by (eapply lookup_lt_Some; eauto).
  assert (Hon : forall srv' t,
             throttle srv' !! i = Some (Some t) -> on t = true ->
             ch_closed t = false ->
             (doneChan_closed srv' = false ->
              forall tempDelay inner,
                Serve_iter i tempDelay inner srv' = Parked srv') /\
             SetThrottle i srv' = Ret tt srv').
  { intros srv' t Ht Hont Hcl. split.
    - intros Hd tempDelay inner. unfold Serve_iter, waitThrottle. go_unfold.
      now rewrite Ht, Hont, Hcl, Hd.
    - unfold SetThrottle. go_unfold. now rewrite Ht, Hont. }
  unfold SetThrottle at 1. go_unfold. rewrite Hv.
  destruct v as [t |]; [destruct (on t) eqn:Eon |].
  - exists srv. split; [reflexivity |]. apply (Hon srv t Hv Eon). now apply Hopen.
  - exists (set_throttle srv (<[i := Some (mkThrottle true false)]> (throttle srv))).
    split; [reflexivity |].
    apply (Hon (set_throttle srv
                  (<[i := Some (mkThrottle true false)]> (throttle srv)))
             (mkThrottle true false)); [| reflexivity ..].
    cbn. now apply list_lookup_insert_eq.
  - exists (set_throttle srv (<[i := Some (mkThrottle true false)]> (throttle srv))).
    split; [reflexivity |].
    apply (Hon (set_throttle srv
                  (<[i := Some (mkThrottle true false)]> (throttle srv)))
             (mkThrottle true false)); [| reflexivity ..].
    cbn. now apply list_lookup_insert_eq.
Qed.

Lemma SetThrottle_suspends_accepts_witness :
  exists srv',
    SetThrottle 0 example_server = Ret tt srv' /\
    Serve_iter 0 0 (Some (mkConn 5 true None None None), None) srv'
    = Parked srv'.
Proof.
  destruct (SetThrottle_suspends_accepts example_server 0 None eq_refl
              ltac:(discriminate))
    as (srv' & Hset & Hpark & _).
  exists srv'. split; [exact Hset |]. now apply Hpark.
Defined.

(** X25. [ClearThrottle] opens the gate: after it the accept loop passes
    [waitThrottle] at once.  On a binding whose throttle was never set it
    does nothing, and clearing twice is the same as clearing once. *)
Theorem ClearThrottle_resumes_accepts (srv : Server) (i : nat)
    (v : option throttle_t) :
  throttle srv !! i = Some v ->
  (forall t, v = Some t -> ch_closed t = false) ->
  exists srv',
    ClearThrottle i srv = Ret tt srv' /\
    waitThrottle i srv' = Ret tt srv' /\
    (v = None -> srv' = srv) /\
    ClearThrottle i srv' = Ret tt srv'.
Proof.
  intros Hv Hopen.
  assert (Hlt : (i < length (throttle srv))%nat) by (eapply lookup_lt_Some; eauto).
  unfold ClearThrottle at 1. go_unfold. rewrite Hv.
  destruct v as [t |].
  - rewrite (Hopen t eq_refl). unfold store_throttle. go_unfold.
    eexists. split; [reflexivity |].
    split.
    { unfold waitThrottle. go_unfold. cbn.
      now rewrite list_lookup_insert_eq. }
    split; [discriminate |].
    unfold ClearThrottle, store_throttle. go_unfold. cbn.
    rewrite list_lookup_insert_eq by assumption. cbn.
    now rewrite list_insert_insert_eq.
  - exists srv. split; [reflexivity |].
    split; [unfold waitThrottle; go_unfold; now rewrite Hv |].
    split; [reflexivity |].
    unfold ClearThrottle. go_unfold. now rewrite Hv.
Qed.

Lemma ClearThrottle_resumes_accepts_witness :
  exists srv1 srv2,
    SetThrottle 0 example_server = Ret tt srv1 /\
    ClearThrottle 0 srv1 = Ret tt srv2 /\
    waitThrottle 0 srv2 = Ret tt srv2.
Proof.
  eexists. 
  destruct (ClearThrottle_resumes_accepts
              (set_throttle example_server [Some (mkThrottle true false)])
              0 (Some (mkThrottle true false)) eq_refl)
    as (srv2 & Hclear & Hwait & _).
  { intros t [= <-]. reflexivity. }
  exists srv2. split; [reflexivity |]. split; [exact Hclear | exact Hwait].
Defined.

(** ** The accept loop *)

Lemma Accept_doneChan (inner : option Conn * option Error) (srv srv' : Server)
    (r : option Conn * option Error) :
  Accept inner srv = Ret r srv' ->
  doneChan_closed srv' = doneChan_closed srv.
Proof.
  unfold Accept. destruct inner as [c [e |]]; [now intros [= _ <-] |].
  destruct c as [tc |]; [| now intros [= _ <-]].
  destruct (isTCPConn tc); now intros [= _ <-].
Qed.

(** A pass of the loop that makes [Serve] return. *)
Lemma Serve_iter_Return (i : nat) (tempDelay : Z)
    (inner : option Conn * option Error) (srv srv' : Server) (err : Error) :
  Serve_iter i tempDelay inner srv = Ret (Return err) srv' ->
  err = ErrServerClosed /\ doneChan_closed srv' = true.
Proof.
  unfold Serve_iter.
  unfold mbind at 1, M_bind at 1, bind at 1.
  destruct (waitThrottle i srv) as [[] srv1 | | | |]; try discriminate.
  unfold mbind at 1, M_bind at 1, bind at 1.
  destruct (Accept inner srv1) as [[rw e] srv2 | | | |] eqn:EA; try discriminate.
  destruct e as [e |].
  - unfold mbind at 1, M_bind at 1, bind at 1. unfold gets at 1.
    destruct (doneChan_closed srv2) eqn:Ed; [now intros [= <- <-] |].
    destruct e as [| | | | | | [|] [|] e0 |]; go_unfold; discriminate.
  - unfold GoFunc, newConn. go_unfold.
    repeat (match goal with
            | |- context [match ?x !! ?k with _ => _ end] => destruct (x !! k)
            end; try discriminate).
Qed.

Lemma Serve_loop_Ret (accepts : list (option Conn * option Error)) :
  forall (i : nat) (tempDelay : Z) (srv srv' : Server) (err : Error),
    Serve_loop accepts i tempDelay srv = Ret err srv' ->
    err = ErrServerClosed /\ doneChan_closed srv' = true.
Proof.
  induction accepts as [| inner rest IH]; intros i d srv srv' err;
    [discriminate |].
  cbn [Serve_loop]. unfold mbind at 1, M_bind at 1, bind at 1.
  destruct (Serve_iter i d inner srv) as [[d' | e] srv1 | | | |] eqn:E;
    try discriminate.
  - apply IH.
  - intros [= <- <-]. apply (Serve_iter_Return _ _ _ _ _ _ E).
Qed.

(** X26. [Serve] returns no error but [ErrServerClosed], and only once the
    done channel is closed; when it returns, its listener has been
    untracked and then closed. *)
Theorem Serve_returns_ErrServerClosed (l : NetListener) (i : nat)
    (accepts : list (option Conn * option Error)) (srv srv' : Server)
    (err : Error) :
  Serve l i accepts srv = Ret err srv' ->
  err = ErrServerClosed /\
  doneChan_closed srv' = true /\
  (ln_id l ∉ (ln_id <$> listeners srv')) /\
  exists tr, trace srv' = tr ++ [EvListenerClose (ln_id l)].
Proof.
  unfold Serve. unfold deferred at 1.
  destruct ((trackListener l true;;
             deferred (trackListener l false) (Serve_loop accepts i 0)) srv)
    as [e srv3 | msg s | | |] eqn:E1; try discriminate.
  intros [= <- <-]. go_cbn.
  unfold mbind, M_bind, bind in E1.
  destruct (trackListener l true srv) as [[] srv1 | | | |]; try discriminate.
  unfold deferred in E1.
  destruct (Serve_loop accepts i 0 srv1) as [e2 srv2 | msg s | | |] eqn:EL;
    try discriminate.
  - apply Serve_loop_Ret in EL as [-> Hd].
    unfold trackListener in E1. repeat autounfold with go in E1.
    destruct (mu srv2); [discriminate |]. cbn in E1.
    injection E1 as <- <-. go_cbn.
    split; [reflexivity |]. split; [exact Hd |]. split; [| eauto].
    intros Hin. apply list_elem_of_fmap in Hin as (x & Hx & Hin).
    apply list_elem_of_filter in Hin as [Hne _]. congruence.
  - destruct (trackListener l false s) as [[] s' | | | |]; discriminate.
Qed.

Lemma Serve_returns_ErrServerClosed_witness :
  let srv := set_doneChan_closed (set_done example_server true) true in
  exists srv',
    Serve (mkListener 7 None) 0
      [(Some (mkConn 5 true None None None), None);
       (None, Some ErrAcceptTimedout)] srv
    = Ret ErrServerClosed srv' /\
    doneChan_closed srv' = true /\
    listeners srv' = [] /\
    trace srv' = [EvSetKeepAlive 5 true; EvSetKeepAlivePeriod 5 20;
                  EvServe 2%nat; EvListenerClose 7].
Proof.
  intros srv. eexists. split; [vm_compute; reflexivity |].
  match goal with
  | |- doneChan_closed ?s = _ /\ _ =>
      destruct (Serve_returns_ErrServerClosed (mkListener 7 None) 0
                  [(Some (mkConn 5 true None None None), None);
                   (None, Some ErrAcceptTimedout)] srv s ErrServerClosed)
        as (_ & Hd & _ & _); [vm_compute; reflexivity |]
  end.
  split; [exact Hd |]. split; reflexivity.
Defined.

(** X27. A temporary accept error makes the loop sleep and go on, with a
    delay that starts at 5 ms, doubles from one such error to the next
    and is capped at 1 s: from a delay that is zero or between 5 ms and
    1 s, the new delay is between 5 ms and 1 s and not below the old one.
    Nothing else changes. *)
Theorem Serve_iter_backoff (srv : Server) (i : nat) (tempDelay : Z)
    (c : option Conn) (e0 : Error) :
  waitThrottle i srv = Ret tt srv ->
  doneChan_closed srv = false ->
  tempDelay = 0 \/ 5 * millisecond <= tempDelay <= 1 * second ->
  exists d : Z,
    Serve_iter i tempDelay (c, Some (OpError false true e0)) srv
    = Ret (Continue d) (log srv (EvSleep d)) /\
    d = (if tempDelay =? 0 then 5 * millisecond
         else Z.min (2 * tempDelay) (1 * second)) /\
    5 * millisecond <= d <= 1 * second /\
    tempDelay <= d.
Proof.
  intros Hw Hd Hrange. unfold Serve_iter.
  erewrite bind_Ret by exact Hw.
  erewrite bind_Ret by reflexivity. cbv beta iota.
  erewrite bind_Ret by reflexivity. rewrite Hd.
  unfold millisecond, second in *.
  destruct (Z.eqb_spec tempDelay 0) as [-> | Hnz].
  - exists (5 * 1000000). split; [reflexivity |]. lia.
  - destruct (Z.ltb_spec (1 * 1000000000) (tempDelay * 2)).
    + exists (1 * 1000000000). split; [reflexivity |]. lia.
    + exists (tempDelay * 2). split; [reflexivity |]. lia.
Qed.

Lemma Serve_iter_backoff_witness :
  Serve_iter 0 (640 * millisecond)
    (None, Some (OpError false true (ErrOther 24))) example_server
  = Ret (Continue (1 * second)) (log example_server (EvSleep (1 * second))).
Proof.
  destruct (Serve_iter_backoff example_server 0 (640 * millisecond) None
              (ErrOther 24) eq_refl eq_refl)
    as (d & Hrun & Hd & _).
  - right. unfold millisecond, second. lia.
  - rewrite Hrun, Hd. reflexivity.
Defined.

(** X28. A socket that is not a [TCPConn] is never tracked or served: on a
    running server the loop logs, sleeps one second and goes on with the
    delay it had, and the server is otherwise as before. *)
Theorem Serve_iter_not_TCPConn (srv : Server) (i : nat) (tempDelay : Z)
    (k : Conn) :
  waitThrottle i srv = Ret tt srv ->
  doneChan_closed srv = false ->
  isTCPConn k = false ->
  Serve_iter i tempDelay (Some k, None) srv
  = Ret (Continue tempDelay) (log srv (EvSleep second)).
Proof.
  intros Hw Hd Htcp. unfold Serve_iter.
  erewrite bind_Ret by exact Hw.
  erewrite bind_Ret by (apply Accept_not_TCPConn; exact Htcp).
  cbv beta iota.
  erewrite bind_Ret by reflexivity. now rewrite Hd.
Qed.

Lemma Serve_iter_not_TCPConn_witness :
  Serve_iter 0 0 (Some (mkConn 5 false None None None), None) example_server
  = Ret (Continue 0) (log example_server (EvSleep second)).
Proof.
  apply (Serve_iter_not_TCPConn example_server 0 0
           (mkConn 5 false None None None) eq_refl eq_refl eq_refl).
Defined.

(** ** Push ids *)

Lemma GetPushIDs_ids (n : nat) :
  forall pushID : Z,
    fst (GetPushIDs n pushID)
    = (fun k => uint64 (pushID + Z.of_nat k)) <$> seq 1 n.
Proof.
  induction n as [| n IH]; intros p; [reflexivity |].
  cbn [GetPushIDs]. unfold GetPushID.
  destruct (GetPushIDs n (uint64 (p + 1))) as [ps p2] eqn:E.
  cbn [fst]. specialize (IH (uint64 (p + 1))). rewrite E in IH. cbn [fst] in IH.
  rewrite IH. cbn [seq fmap list_fmap]. f_equal.
  rewrite <- (fmap_S_seq 1 n), <- list_fmap_compose.
  apply list_fmap_ext. intros _ k _. cbn. unfold uint64.
  rewrite Zplus_mod_idemp_l. f_equal. lia.
Qed.

(** X29. The ids handed out by [GetPushID] are the counter plus 1, plus 2
    and so on, modulo 2^64; in a run of at most 2^64 calls no id is handed
    out twice. *)
Theorem GetPushIDs_distinct (n : nat) (pushID : Z) :
  Z.of_nat n <= 2 ^ 64 ->
  fst (GetPushIDs n pushID)
  = (fun k => uint64 (pushID + Z.of_nat k)) <$> seq 1 n /\
  NoDup (fst (GetPushIDs n pushID)).
Proof.
  intros Hn. split; [apply GetPushIDs_ids |].
  rewrite GetPushIDs_ids.
  apply NoDup_fmap_2_strong; [| apply NoDup_seq].
  intros k1 k2 H1 H2 Heq.
  apply elem_of_seq in H1. apply elem_of_seq in H2.
  unfold uint64 in Heq.
  assert (Hdiv : ((pushID + Z.of_nat k1) - (pushID + Z.of_nat k2)) mod 2 ^ 64
                 = 0)
    by (rewrite Zminus_mod, Heq, Z.sub_diag; reflexivity).
  apply Z.mod_divide in Hdiv; [| lia].
  destruct Hdiv as [q Hq].
  assert (q = 0) by nia. lia.
Qed.

Lemma GetPushIDs_distinct_witness :
  fst (GetPushIDs 3 (2 ^ 64 - 2)) = [2 ^ 64 - 1; 0; 1] /\
  NoDup (fst (GetPushIDs 3 (2 ^ 64 - 2))).
Proof.
  split; [reflexivity |].
  apply (proj2 (GetPushIDs_distinct 3 (2 ^ 64 - 2) ltac:(cbn; lia))).
Defined.

(** ** Lookups by id *)

(** Ids that are not bound are skipped by [WalkConnByID], and
    [GetConnectionInfoByID] answers nil for them. *)
Remark WalkConnByID_unbound_ids (srv : Server) (i : nat) (ids : list string)
    (tbl : gmap string connptr)
    (f : FrameWriter -> ConnectionInfo -> M unit) :
  id2Conn srv !! i = Some tbl ->
  Forall (fun id => tbl !! id = None) ids ->
  WalkConnByID i ids f srv = Ret tt srv /\
  Forall (fun id => GetConnectionInfoByID i id srv = Ret None srv) ids.
Proof.
  intros Htbl Hids. induction Hids as [| id ids Hid Hids [IH1 IH2]].
  - split; [reflexivity | constructor].
  - split.
    + cbn [WalkConnByID]. go_unfold. rewrite Htbl, Hid.
      exact IH1.
    + constructor; [| exact IH2].
      unfold GetConnectionInfoByID. go_unfold. now rewrite Htbl, Hid.
Qed.

(** X30. With a visitor that binds and unbinds no id and frees no
    connection, [WalkConnByID] calls the visitor on the connections bound
    to the listed ids, in the order of the list and once for each time an
    id is listed; ids that are not bound are skipped. *)
Theorem WalkConnByID_visits_bound (i : nat) (ids : list string)
    (tbl : gmap string connptr)
    (f : FrameWriter -> ConnectionInfo -> M unit) :
  (forall w ci s s',
      f w ci s = Ret tt s' ->
      id2Conn s' = id2Conn s /\
      (forall p, is_Some (heap s !! p) -> is_Some (heap s' !! p))) ->
  forall srv : Server,
    id2Conn srv !! i = Some tbl ->
    (forall id sc, tbl !! id = Some sc -> is_Some (heap srv !! sc)) ->
    WalkConnByID i ids f srv = visit_all f (omap (fun id => tbl !! id) ids) srv.
Proof.
  intros Hf. induction ids as [| id ids IH]; intros srv Htbl Hheap;
    [reflexivity |].
  cbn [WalkConnByID omap list_omap].
  erewrite bind_Ret by (unfold index; rewrite Htbl; reflexivity).
  destruct (tbl !! id) as [sc |] eqn:Hid.
  - destruct (Hheap id sc Hid) as [c Hc].
    cbn [visit_all]. unfold mbind, M_bind, bind, deref. rewrite Hc.
    destruct (f (GetWriter sc) sc srv) as [[] s' | | | |] eqn:Ef;
      try reflexivity.
    destruct (Hf _ _ _ _ Ef) as [Hid2 Hkeep].
    apply IH; [now rewrite Hid2 |].
    intros id' sc' H'. apply Hkeep. eauto.
  - unfold mbind, M_bind, bind, ret. now apply IH.
Qed.

(** A visitor that only calls out, walking over a bound id listed twice
    and an id that is not bound. *)
Lemma WalkConnByID_visits_bound_witness :
  WalkConnByID 0 ["u1"; "u2"; "u1"] (fun w ci => emit (EvOnKick 9 w))
    example_server
  = Ret tt (log (log example_server (EvOnKick 9 (GetWriter 0%nat)))
              (EvOnKick 9 (GetWriter 0%nat))).
Proof.
  rewrite (WalkConnByID_visits_bound 0 ["u1"; "u2"; "u1"] {[ "u1" := 0%nat ]}
             (fun w ci => emit (EvOnKick 9 w))).
  - reflexivity.
  - intros w ci s s' [= <-]. split; [reflexivity | trivial].
  - reflexivity.
  - intros id sc H. apply lookup_singleton_Some in H as [_ <-]. eauto.
Defined.
